(** * compare-bundle-size: the diff-to-report pipeline of [utils.mjs]

    A shallow embedding of the JavaScript sources.  Byte counts are integers
    ([Z]); the one place where the program leaves integer arithmetic, the
    percentage [Math.round((delta / originalSize) * 100)], is computed in
    IEEE 754 binary64 with the software floats of the standard library.
    Text is [string], one [ascii] per code unit; a thrown exception is an
    explicit [Throw] result; the [while] loop of the table renderer runs on
    fuel.  What the package takes from elsewhere (the byte formatter, the
    regular-expression engine, the JSON parser, the differ of the size
    plugin) is a parameter, given as a class with one method. *)

From Stdlib Require Import ZArith List String Ascii Bool Lia QArith Qround.
From Stdlib Require Import DecimalString Permutation.
From Stdlib Require DecimalFacts DecimalPos.
From Stdlib Require Floats.SpecFloat.
Import ListNotations.
Import SpecFloat.

Local Open Scope string_scope.
Local Open Scope Z_scope.

(** ** Exceptions *)

Inductive exn : Type :=
| TypeError (msg : string)
| SyntaxError (msg : string)
| Error (msg : string)
| Rejected (reason : string).

Inductive result (A : Type) : Type :=
| Ok (a : A)
| Throw (e : exn).
Arguments Ok {A} a.
Arguments Throw {A} e.

Definition bind {A B : Type} (r : result A) (k : A -> result B) : result B :=
  match r with
  | Ok a => k a
  | Throw e => Throw e
  end.

Notation "x <- r ;; k" := (bind r (fun x => k))
  (at level 61, r at next level, right associativity).

(** ** Strings *)

Definition LF : string := String "010"%char EmptyString.
Definition CR : string := String "013"%char EmptyString.

(** [s.slice(n)] *)
Fixpoint drop (n : nat) (s : string) : string :=
  match n, s with
  | O, _ => s
  | S n', String _ s' => drop n' s'
  | S _, EmptyString => EmptyString
  end.

(** [s.slice(0, n)] *)
Fixpoint take (n : nat) (s : string) : string :=
  match n, s with
  | O, _ => EmptyString
  | S n', String c s' => String c (take n' s')
  | S _, EmptyString => EmptyString
  end.

(** [s.includes(pat)] *)
Fixpoint includes (pat s : string) : bool :=
  if prefix pat s then true
  else match s with
       | EmptyString => false
       | String _ s' => includes pat s'
       end.

(** [s.replace(pat, rep)] for a string pattern and a replacement text free
    of dollar signs: the first occurrence of [pat], if any, is replaced. *)
Fixpoint replaceFirst (s pat rep : string) : string :=
  if prefix pat s then rep ++ drop (String.length pat) s
  else match s with
       | EmptyString => EmptyString
       | String c s' => String c (replaceFirst s' pat rep)
       end.

(** [parts.join(sep)] *)
Definition join (sep : string) (parts : list string) : string :=
  String.concat sep parts.

(** A string is falsy exactly when it is empty. *)
Definition truthy (s : string) : bool :=
  match s with
  | EmptyString => false
  | String _ _ => true
  end.

(** ** Numbers

    A JavaScript Number is a binary64 float. *)

Definition prec : Z := 53.
Definition emax : Z := 1024.

Definition number : Type := spec_float.

(** The Number an integer literal or an integer byte count denotes. *)
Definition Z2F (z : Z) : number := binary_normalize prec emax z 0 false.

Definition js_div (x y : number) : number := SFdiv prec emax x y.
Definition js_mul (x y : number) : number := SFmul prec emax x y.

(** The values [Math.round] can return: an integral Number, an infinity or
    NaN.  Minus zero is identified with zero: the program only compares the
    result with integer literals and converts it to a string, and neither
    tells the two zeros apart. *)
Inductive rounded : Type :=
| Finite (z : Z)
| Infinite (negative : bool)
| NotANumber.

(** [Math.round(x)]: the integral Number closest to [x], the one closer to
    plus infinity when two are equally close. *)
Definition Math_round (x : number) : rounded :=
  match x with
  | S754_zero _ => Finite 0
  | S754_infinity s => Infinite s
  | S754_nan => NotANumber
  | S754_finite s m e =>
      let v := cond_Zopp s (Zpos m) in
      if 0 <=? e then Finite (v * 2 ^ e)
      else Finite ((2 * v + 2 ^ (- e)) / 2 ^ (1 - e))
  end.

(** [p >= k] and [p <= k] and [p > k] for an integer literal [k]. *)
Definition geZ (p : rounded) (k : Z) : bool :=
  match p with
  | Finite z => k <=? z
  | Infinite negative => negb negative
  | NotANumber => false
  end.

Definition leZ (p : rounded) (k : Z) : bool :=
  match p with
  | Finite z => z <=? k
  | Infinite negative => negative
  | NotANumber => false
  end.

Definition gtZ (p : rounded) (k : Z) : bool :=
  match p with
  | Finite z => k <? z
  | Infinite negative => negb negative
  | NotANumber => false
  end.

(** The exact value of a finite Number, as a fraction. *)
Definition F2Q (x : number) : option Q :=
  match x with
  | S754_zero _ => Some 0%Q
  | S754_finite s m e =>
      let v := cond_Zopp s (Zpos m) in
      Some (if 0 <=? e then inject_Z (v * 2 ^ e)
            else Qmake v (Z.to_pos (2 ^ (- e))))
  | _ => None
  end.

(** Decimal digits of a non-negative integer. *)
Definition digits (z : Z) : string :=
  NilZero.string_of_uint (N.to_uint (Z.to_N z)).

(** Trailing zeros removed. *)
Fixpoint stripZeros (s : string) : string :=
  match s with
  | EmptyString => EmptyString
  | String c s' =>
      match stripZeros s' with
      | EmptyString => if Ascii.eqb c "0" then EmptyString else String c EmptyString
      | t => String c t
      end
  end.

(** The shortest decimal [s * 10^j] that converts back to the same Number as
    the positive integer [X], found by trying [k = 1, 2, ...] significant
    digits; of the two candidates around [X] the closer one is taken. *)
Fixpoint shortest (fuel : nat) (X P : Z) : Z :=
  match fuel with
  | O => X
  | S fuel' =>
      let lo := (X / P) * P in
      let hi := lo + P in
      let same c := SFeqb (Z2F c) (Z2F X) in
      let lo_ok := (0 <? lo) && same lo in
      let hi_ok := same hi in
      if lo_ok && hi_ok then (if X - lo <=? hi - X then lo else hi)
      else if lo_ok then lo
      else if hi_ok then hi
      else shortest fuel' X (P / 10)
  end.

(** [String(p)] for the result of [Math.round]: Number::toString in radix 10
    on integral values. *)
Definition Number_toString (p : rounded) : string :=
  match p with
  | NotANumber => "NaN"
  | Infinite negative => if negative then "-Infinity" else "Infinity"
  | Finite 0 => "0"
  | Finite z =>
      let X := Z.abs z in
      let n := String.length (digits X) in
      let c := shortest n X (10 ^ (Z.of_nat n - 1)) in
      let d := digits c in
      let sign := if z <? 0 then "-" else "" in
      if (String.length d <=? 21)%nat then sign ++ d
      else
        let s := stripZeros d in
        let e := digits (Z.of_nat (String.length d) - 1) in
        match s with
        | String c1 EmptyString => sign ++ String c1 EmptyString ++ "e+" ++ e
        | String c1 rest => sign ++ String c1 EmptyString ++ "." ++ rest ++ "e+" ++ e
        | EmptyString => sign ++ d
        end
  end.

(** [Math.round((delta / originalSize) * 100)], the expression both
    [getDeltaText] and [iconForDifference] bind to [percentage]. *)
Definition rawPercentage (delta originalSize : Z) : number :=
  js_mul (js_div (Z2F delta) (Z2F originalSize)) (Z2F 100).

Definition percentage (delta originalSize : Z) : rounded :=
  Math_round (rawPercentage delta originalSize).

(** Rounding to the nearest integer with ties away from zero, the rule the
    specification names. *)
Definition round_half_away_from_zero (q : Q) : Z :=
  if Qle_bool 0 q then Qfloor (q + (1 # 2))
  else - Qfloor (- q + (1 # 2)).

(** [n] is [q] rounded to the nearest integer, a tie going to the larger
    one. *)
Definition rounds_half_up (q : Q) (n : Z) : Prop :=
  (inject_Z n - (1 # 2) <= q)%Q /\ (q < inject_Z n + (1 # 2))%Q.

(** ** External collaborators

    [pretty-bytes] formats a byte count; it is a dependency of the package,
    not part of it, and the report is stated over whatever it returns. *)
Class Formatter : Type := prettyBytes : Z -> string.

(** ** Delta classifier *)

Definition icon_new : string := "🆕".
Definition icon_critical_growth : string := "🆘".
Definition icon_warning_growth : string := "🚨".
Definition icon_caution_growth : string := "⚠️".
Definition icon_notice_growth : string := "🔍".
Definition icon_trophy_shrink : string := "🏆".
Definition icon_celebration_shrink : string := "🎉".
Definition icon_applause_shrink : string := "👏".
Definition icon_check_shrink : string := "✅".

Definition getDeltaText `{Formatter} (delta originalSize : Z) : string :=
  let deltaText := (if 0 <? delta then "+" else "") ++ prettyBytes delta in
  if Z.abs delta =? 0 then
    deltaText
  else if originalSize =? 0 then
    deltaText ++ " (new file)"
  else if originalSize =? - delta then
    deltaText ++ " (removed)"
  else
    let percentage := percentage delta originalSize in
    deltaText ++ " (" ++ (if gtZ percentage 0 then "+" else "")
              ++ Number_toString percentage ++ "%)".

Definition iconForDifference (delta originalSize : Z) : string :=
  if originalSize =? 0 then icon_new
  else
    let percentage := percentage delta originalSize in
    if geZ percentage 50 then icon_critical_growth
    else if geZ percentage 20 then icon_warning_growth
    else if geZ percentage 10 then icon_caution_growth
    else if geZ percentage 5 then icon_notice_growth
    else if leZ percentage (-50) then icon_trophy_shrink
    else if leZ percentage (-20) then icon_celebration_shrink
    else if leZ percentage (-10) then icon_applause_shrink
    else if leZ percentage (-5) then icon_check_shrink
    else "".

(** ** Table renderer *)

(** [!columns[columns.length - 1]]: the last cell is missing or empty. *)
Definition lastFalsy (columns : list string) : bool :=
  match columns with
  | [] => true
  | _ => negb (truthy (last columns ""))
  end.

(** [columns.pop()], which leaves an empty array as it is. *)
Definition pop (columns : list string) : list string := removelast columns.

(** The loop [while (rows.every(...)) { for (...) columns.pop(); }].
    [None]: the condition still holds after [fuel] rounds of popping. *)
Fixpoint skipEmptyColumns (fuel : nat) (rows : list (list string))
  : option (list (list string)) :=
  if forallb lastFalsy rows then
    match fuel with
    | O => None
    | S fuel' => skipEmptyColumns fuel' (map pop rows)
    end
  else Some rows.

(** [columns[2] === '0 B'] *)
Definition changeIsZero (columns : list string) : bool :=
  match nth_error columns 2 with
  | Some c => String.eqb c "0 B"
  | None => false
  end.

Definition tableHeader : list string := ["Filename"; "Size"; "Change"; ""].
Definition tableAlign : list string := [":---"; ":---:"; ":---:"; ":---:"].

Definition renderRow (columns : list string) : string :=
  "| " ++ join " | " columns ++ " |".

Definition markdownTable (fuel : nat) (rows : list (list string)) : option string :=
  match rows with
  | [] => Some ""
  | _ =>
      match skipEmptyColumns fuel rows with
      | None => None
      | Some rows =>
          let firstRow := hd [] rows in
          let columnLength := List.length firstRow in
          let '(columnLength, rows) :=
            if (columnLength =? 3)%nat && forallb changeIsZero rows
            then ((columnLength - 1)%nat, map pop rows)
            else (columnLength, rows) in
          if (columnLength =? 0)%nat then Some ""
          else
            Some (join LF
                    (map renderRow
                       (firstn columnLength tableHeader
                          :: firstn columnLength tableAlign
                          :: rows)))
      end
  end.

(** ** Diff report builder *)

Record Diff : Type := { filename : string; size : Z; delta : Z }.

Record Options : Type := {
  showTotal : bool;
  collapseUnchanged : bool;
  omitUnchanged : bool;
  minimumChangeThreshold : Z
}.

(** The variables the [for] loop of [diffTable] updates. *)
Record Tally : Type := {
  changedRows : list (list string);
  unChangedRows : list (list string);
  totalSize : Z;
  totalDelta : Z
}.

Definition emptyTally : Tally :=
  {| changedRows := []; unChangedRows := []; totalSize := 0; totalDelta := 0 |}.

Definition isUnchanged (o : Options) (file : Diff) : bool :=
  Z.abs (delta file) <? minimumChangeThreshold o.

Definition columnsOf `{Formatter} (file : Diff) : list string :=
  let originalSize := size file - delta file in
  [ "`" ++ filename file ++ "`";
    prettyBytes (size file);
    getDeltaText (delta file) originalSize;
    iconForDifference (delta file) originalSize ].

(** One round of the loop body. *)
Definition tallyFile `{Formatter} (o : Options) (t : Tally) (file : Diff) : Tally :=
  let totalSize := totalSize t + size file in
  let totalDelta := totalDelta t + delta file in
  if isUnchanged o file && omitUnchanged o then
    {| changedRows := changedRows t; unChangedRows := unChangedRows t;
       totalSize := totalSize; totalDelta := totalDelta |}
  else
    let columns := columnsOf file in
    if isUnchanged o file && collapseUnchanged o then
      {| changedRows := changedRows t; unChangedRows := unChangedRows t ++ [columns];
         totalSize := totalSize; totalDelta := totalDelta |}
    else
      {| changedRows := changedRows t ++ [columns]; unChangedRows := unChangedRows t;
         totalSize := totalSize; totalDelta := totalDelta |}.

Definition tally `{Formatter} (o : Options) (files : list Diff) : Tally :=
  fold_left (tallyFile o) files emptyTally.

Definition detailsOpen : string :=
  LF ++ LF ++ "<details><summary>ℹ️ <strong>View Unchanged</strong></summary>" ++ LF ++ LF.
Definition detailsClose : string :=
  LF ++ LF ++ "</details>" ++ LF ++ LF.

Definition diffTable `{Formatter} (fuel : nat) (files : list Diff) (o : Options)
  : option string :=
  let t := tally o files in
  match markdownTable fuel (changedRows t) with
  | None => None
  | Some out =>
      let withUnchanged :=
        match unChangedRows t with
        | [] => Some out
        | _ =>
            match markdownTable fuel (unChangedRows t) with
            | None => None
            | Some outUnchanged => Some (out ++ detailsOpen ++ outUnchanged ++ detailsClose)
            end
        end in
      match withUnchanged with
      | None => None
      | Some out =>
          if showTotal o then
            let totalOriginalSize := totalSize t - totalDelta t in
            let totalDeltaText := getDeltaText (totalDelta t) totalOriginalSize in
            let totalIcon := iconForDifference (totalDelta t) totalOriginalSize in
            let out := "**Total Size:** " ++ prettyBytes (totalSize t) ++ LF ++ LF ++ out in
            let out := "**Size Change:** " ++ totalDeltaText ++ " " ++ totalIcon
                         ++ LF ++ LF ++ out in
            Some out
          else Some out
      end
  end.

(** [pretty-bytes] on magnitudes below 1000, where it prints the integer and
    the unit [B]; it serves to run the report on small concrete inputs. *)
Definition plainBytes (n : Z) : string :=
  (if n <? 0 then "-" else "") ++ digits (Z.abs n) ++ " B".

(** ** Hash-stripping normalizer *)

(** What one successful match of a regular expression hands to a replacer
    function: the matched text, the value of each capture group in order
    ([None] for a group that did not take part), the offset of the match, and
    whether the pattern has named groups (the replacer then receives a
    [groups] object as one more, last argument). *)
Record Match : Type := {
  matched : string;
  captures : list (option string);
  offset : nat;
  namedGroups : bool
}.

(** A compiled pattern without flags, by what it does: its first match in a
    text, if any. *)
Record RegExp : Type := { exec : string -> option Match }.

(** [new RegExp(source)], which throws a SyntaxError on an invalid pattern.
    The regular-expression engine belongs to the language. *)
Class RegExpEngine : Type := RegExp_new : string -> result RegExp.

(** The values a replacer argument can take. *)
Inductive value : Type :=
| VUndefined
| VString (s : string)
| VNumber (n : nat)
| VObject.

Definition ofCapture (c : option string) : value :=
  match c with
  | Some s => VString s
  | None => VUndefined
  end.

(** The rest arguments [...hashes] of the replacer for the match [m] in
    [input]. *)
Definition replacerArgs (m : Match) (input : string) : list value :=
  map ofCapture (captures m)
      ++ [VNumber (offset m); VString input]
      ++ (if namedGroups m then [VObject] else []).

(** [xs.slice(0, -2)] *)
Definition dropLast2 {A : Type} (xs : list A) : list A :=
  firstn (List.length xs - 2) xs.

(** [c != null] *)
Definition notNull (c : value) : bool :=
  match c with
  | VUndefined => false
  | _ => true
  end.

(** [element || ''] *)
Definition orEmpty (element : value) : value :=
  match element with
  | VUndefined => VString ""
  | VString s => VString s
  | VNumber O => VString ""
  | VNumber n => VNumber n
  | VObject => VObject
  end.

(** A dot of a pattern without flags matches every character but the line
    terminators; of these the characters of this model have two. *)
Definition isLineTerminator (c : ascii) : bool :=
  Ascii.eqb c "010" || Ascii.eqb c "013".

(** [hash.replace(/./g, '*')] on a string *)
Fixpoint maskAll (hash : string) : string :=
  match hash with
  | EmptyString => EmptyString
  | String c rest =>
      String (if isLineTerminator c then c else "*"%char) (maskAll rest)
  end.

(** The body of the [for] loop over [hashes]. *)
Definition maskOne (str : string) (element : value) : result string :=
  match orEmpty element with
  | VString hash => Ok (replaceFirst str hash (maskAll hash))
  | _ => Throw (TypeError "hash.replace is not a function")
  end.

Fixpoint maskEach (str : string) (hashes : list value) : result string :=
  match hashes with
  | [] => Ok str
  | element :: rest => str' <- maskOne str element ;; maskEach str' rest
  end.

(** The replacer function [(str, ...hashes) => ...]. *)
Definition replacer (str : string) (hashes : list value) : result string :=
  let hashes := filter notNull (dropLast2 hashes) in
  match hashes with
  | [] => Ok ""
  | _ => maskEach str hashes
  end.

(** [fileName.replace(re, fn)] for a pattern without the global flag. *)
Definition String_replace (fileName : string) (re : RegExp)
           (fn : string -> list value -> result string) : result string :=
  match exec re fileName with
  | None => Ok fileName
  | Some m =>
      replacement <- fn (matched m) (replacerArgs m fileName) ;;
      Ok (take (offset m) fileName ++ replacement
            ++ drop (offset m + String.length (matched m)) fileName)
  end.

(** [stripHash(regex)]: [None] is [undefined], both as the argument and as
    the returned value. *)
Definition stripHash `{RegExpEngine} (regex : option string)
  : option (string -> result string) :=
  match regex with
  | Some source =>
      if truthy source then
        Some (fun fileName =>
                re <- RegExp_new source ;;
                String_replace fileName re replacer)
      else None
  | None => None
  end.

(** The pattern the command line tool passes to [stripHash], a dot, eight
    word characters and [.js] at the end of the text, by what it matches. *)
Definition isWordChar (c : ascii) : bool :=
  let n := nat_of_ascii c in
  ((48 <=? n) && (n <=? 57) || (65 <=? n) && (n <=? 90)
   || (97 <=? n) && (n <=? 122) || (n =? 95))%nat.

Fixpoint allWordChars (s : string) : bool :=
  match s with
  | EmptyString => true
  | String c rest => isWordChar c && allWordChars rest
  end.

Definition hashedJsHere (s : string) : option string :=
  match s with
  | String "." rest =>
      let hash := take 8 rest in
      if (String.length hash =? 8)%nat && allWordChars hash
         && String.eqb (drop 8 rest) ".js"
      then Some hash else None
  | _ => None
  end.

Fixpoint hashedJsFrom (pos : nat) (s : string) : option Match :=
  match hashedJsHere s with
  | Some hash =>
      Some {| matched := s; captures := [Some hash]; offset := pos;
              namedGroups := false |}
  | None =>
      match s with
      | EmptyString => None
      | String _ rest => hashedJsFrom (S pos) rest
      end
  end.

Definition hashedJs : RegExp := {| exec := hashedJsFrom 0 |}.
Definition hashedJsSource : string := "\.(\w{8})\.js$".

(** The normalizer as the specification words it: the last two capture
    groups are bookkeeping and are not masked. *)
Definition replacer_sparing_trailing_groups (m : Match) : result string :=
  match filter notNull (map ofCapture (dropLast2 (captures m))) with
  | [] => Ok ""
  | hashes => maskEach (matched m) hashes
  end.

Definition normalize_sparing_trailing_groups (re : RegExp) (fileName : string)
  : result string :=
  match exec re fileName with
  | None => Ok fileName
  | Some m =>
      replacement <- replacer_sparing_trailing_groups m ;;
      Ok (take (offset m) fileName ++ replacement
            ++ drop (offset m + String.length (matched m)) fileName)
  end.

(** ** The stored baseline and the [compare] command *)

(** A parsed JSON document. *)
#[local] Set Warnings "-register-all".
Inductive Json : Type :=
| JNull
| JBool (b : bool)
| JNumber (x : number)
| JString (s : string)
| JArray (items : list Json)
| JObject (fields : list (string * Json)).

(** [JSON.parse], which throws a SyntaxError on malformed text. *)
Class JsonParser : Type := JSON_parse : string -> result Json.

Fixpoint lookup {A : Type} (key : string) (fields : list (string * A)) : option A :=
  match fields with
  | [] => None
  | (k, v) :: rest => if String.eqb k key then Some v else lookup key rest
  end.

(** [v.key] for a key that is neither an index nor a built-in property
    ([bundle] is the only one read this way); [None] is [undefined]. *)
Definition getProp (v : option Json) (key : string) : result (option Json) :=
  match v with
  | None =>
      Throw (TypeError ("Cannot read properties of undefined (reading '" ++ key ++ "')"))
  | Some JNull =>
      Throw (TypeError ("Cannot read properties of null (reading '" ++ key ++ "')"))
  | Some (JObject fields) => Ok (lookup key fields)
  | Some _ => Ok None
  end.

Definition jsTruthy (v : option Json) : bool :=
  match v with
  | None => false
  | Some JNull => false
  | Some (JBool b) => b
  | Some (JNumber (S754_zero _)) => false
  | Some (JNumber S754_nan) => false
  | Some (JNumber _) => true
  | Some (JString s) => truthy s
  | Some (JArray _) => true
  | Some (JObject _) => true
  end.

(** [v ?? {}] *)
Definition orEmptyObject (v : option Json) : Json :=
  match v with
  | None => JObject []
  | Some JNull => JObject []
  | Some j => j
  end.

Definition GIST_FILE_NAME : string := "bundle-stats.json".

(** A file of a gist as the GitHub API returns it; the program reads its
    [content]. *)
Record GistFile : Type := { content : string }.

(** What the request of [getGistContents] can come to: [fetch] rejects, or
    it resolves to a response with its [ok] flag and status text, whose
    [json()] rejects or resolves to the gist, of which [files] is read. *)
Inductive Fetched : Type :=
| FetchRejects (reason : string)
| Response (ok : bool) (statusText : string)
           (json : result (list (string * GistFile))).

Inductive ConsoleLine : Type :=
| ConsoleError (label : string) (error : exn)
| ConsoleLog (text : string).

(** The [try] block of [getGistContents]. *)
Definition readGist `{JsonParser} (fetched : Fetched) : result Json :=
  match fetched with
  | FetchRejects reason => Throw (Rejected reason)
  | Response ok statusText json =>
      if negb ok then Throw (Error ("Failed to fetch gist: " ++ statusText))
      else
        files <- json ;;
        let gistFile := lookup GIST_FILE_NAME files in
        jsonFile <- match gistFile with
                    | Some file => JSON_parse (content file)
                    | None => Ok (JObject [])
                    end ;;
        bundle <- getProp (Some jsonFile) "bundle" ;;
        if jsTruthy bundle then Ok jsonFile
        else Ok (JObject [("bundle", jsonFile)])
  end.

(** [getGistContents()]: what it writes to the console and the value its
    promise resolves to; the [catch] block logs and falls off the end of the
    function, so the value is then [undefined]. *)
Definition getGistContents `{JsonParser} (fetched : Fetched)
  : list ConsoleLine * option Json :=
  match readGist fetched with
  | Ok stored => ([], Some stored)
  | Throw error => ([ConsoleError "getGistContents error" error], None)
  end.

(** A size snapshot: an object from file names to byte counts, its keys in
    insertion order. *)
Definition Snapshot : Type := list (string * Z).

(** [obj[key] = v] *)
Fixpoint assign (obj : Snapshot) (key : string) (v : Z) : Snapshot :=
  match obj with
  | [] => [(key, v)]
  | (k, w) :: rest =>
      if String.eqb k key then (k, v) :: rest else (k, w) :: assign rest key v
  end.

Definition excludePattern : string := "/precache-manifest.".
Definition trimPathPattern : string := "/build/output".

Definition cleanSizes (sizes : Snapshot) : Snapshot :=
  fold_left
    (fun newSizes '(name, bytes) =>
       assign newSizes (replaceFirst name trimPathPattern "") bytes)
    (filter (fun '(name, _) => negb (includes excludePattern name)) sizes)
    [].

(** [plugin.getDiff] of [size-plugin-core]: the file diffs of a stored
    baseline and the current sizes, with integer sizes and deltas; a
    baseline whose entries are not numbers, on which the differ yields NaN,
    is outside this development. *)
Class Differ : Type := getDiff : Json -> Snapshot -> list Diff.

(** How a run of an asynchronous command ends. *)
Record Run : Type := {
  console : list ConsoleLine;
  outcome : result unit
}.

(** [compare({ threshold })] up to the printing of the report, for the sizes
    [plugin.readFromDisk] returned and the answer to the gist request; this
    is the whole command when [devStats] is false, and [compareCommand]
    below adds the statistics that follow the report otherwise.
    [None]: the table renderer is still looping after [fuel] rounds. *)
Definition compare `{Formatter} `{JsonParser} `{Differ}
           (fuel : nat) (origSizes : Snapshot) (fetched : Fetched) (threshold : Z)
  : option Run :=
  let sizes := cleanSizes origSizes in
  let '(logged, prev) := getGistContents fetched in
  match getProp prev "bundle" with
  | Throw error => Some {| console := logged; outcome := Throw error |}
  | Ok bundle =>
      let diff := getDiff (orEmptyObject bundle) sizes in
      match diffTable fuel diff
              {| showTotal := true; collapseUnchanged := true;
                 omitUnchanged := false; minimumChangeThreshold := threshold |} with
      | None => None
      | Some markdownDiff =>
          Some {| console := logged ++ [ConsoleLog markdownDiff]; outcome := Ok tt |}
      end
  end.


(** A parser that rejects its input, as [JSON.parse] does a stored document
    that is not JSON; and a differ that finds no file.  They serve to run
    [compare] on a concrete malformed document. *)
Definition rejectingParser : JsonParser :=
  fun _ => Throw (SyntaxError "Unexpected end of JSON input").

Definition noDiff : Differ := fun _ _ => [].

(** ** Vocabulary of the statements *)

(** Every cell of every row is the empty string. *)
Definition allCellsEmpty (rows : list (list string)) : Prop :=
  forall columns, In columns rows -> forall cell, In cell columns -> cell = "".

Definition sumSize (files : list Diff) : Z :=
  fold_right (fun file acc => size file + acc) 0 files.

Definition sumDelta (files : list Diff) : Z :=
  fold_right (fun file acc => delta file + acc) 0 files.

(** The files whose row the loop of [diffTable] pushes to [changedRows], and
    those whose row it pushes to [unChangedRows]. *)
Definition shownAsChanged (o : Options) (file : Diff) : bool :=
  negb (isUnchanged o file && omitUnchanged o)
  && negb (isUnchanged o file && collapseUnchanged o).

Definition shownAsUnchanged (o : Options) (file : Diff) : bool :=
  negb (isUnchanged o file && omitUnchanged o)
  && (isUnchanged o file && collapseUnchanged o).

(** The two lines [diffTable] puts in front of the report when [showTotal]
    is set, in the order they come out. *)
Definition totalLines `{Formatter} (totalSize totalDelta : Z) : string :=
  "**Size Change:** " ++ getDeltaText totalDelta (totalSize - totalDelta)
    ++ " " ++ iconForDifference totalDelta (totalSize - totalDelta) ++ LF ++ LF
    ++ "**Total Size:** " ++ prettyBytes totalSize ++ LF ++ LF.

(** The capture groups that took part in a match, and the masking of their
    values one after the other in the matched text. *)
Fixpoint participating (captures : list (option string)) : list string :=
  match captures with
  | [] => []
  | Some hash :: rest => hash :: participating rest
  | None :: rest => participating rest
  end.

Definition maskCaptures (str : string) (hashes : list string) : string :=
  fold_left (fun str hash => replaceFirst str hash (maskAll hash)) hashes str.

Fixpoint noLineTerminator (s : string) : bool :=
  match s with
  | EmptyString => true
  | String c rest => negb (isLineTerminator c) && noLineTerminator rest
  end.

Fixpoint stars (n : nat) : string :=
  match n with
  | O => EmptyString
  | S n' => String "*" (stars n')
  end.

(** ** node_modules statistics *)

Module Stats.
Record t : Type := { size : Z; count : Z }.
End Stats.

(** [String(n)] for an integer Number. *)
Definition intToString (n : Z) : string := Number_toString (Finite n).

(** [curr - prev?.field || 0] on integer statistics: a missing baseline
    makes the difference NaN, which [||] turns into zero. *)
Definition statDiff (curr : Z) (prev : option Z) : Z :=
  match prev with
  | Some before => curr - before
  | None => 0
  end.

(** [devStatsDiff(curr, prev)]; [prev] is [None] when the stored document
    has no [devStats]. *)
Definition devStatsDiff `{Formatter} (curr : Stats.t) (prev : option Stats.t)
  : string :=
  let currSize := prettyBytes (Stats.size curr) in
  let fileCountDiff := statDiff (Stats.count curr) (option_map Stats.count prev) in
  let fileSizeDiff := statDiff (Stats.size curr) (option_map Stats.size prev) in
  let countDiff :=
    match prev with
    | None => ""
    | Some before =>
        if fileCountDiff =? 0 then ""
        else "(**" ++ (if 0 <? fileCountDiff then "+" else "-")
                   ++ intToString fileCountDiff ++ "** change) "
                   ++ iconForDifference fileCountDiff (Stats.count before)
    end in
  let sizeDiff :=
    match prev with
    | None => ""
    | Some before =>
        if fileSizeDiff =? 0 then ""
        else "(**" ++ (if 0 <? fileSizeDiff then "+" else "-")
                   ++ prettyBytes fileSizeDiff ++ "** change) "
                   ++ iconForDifference fileSizeDiff (Stats.size before)
    end in
  LF ++ "## node_modules stats" ++ LF ++ LF
     ++ "**Module count:** " ++ intToString (Stats.count curr) ++ " " ++ countDiff
     ++ LF ++ LF
     ++ "**Total Size:** " ++ currSize ++ " " ++ sizeDiff ++ LF ++ "  ".

(** ** The [compare] command with its statistics *)

(** The integer a Number is, if it is one. *)
Definition integerOf (x : number) : option Z :=
  match x with
  | S754_zero _ => Some 0
  | S754_finite s m e =>
      if 0 <=? e then Some (cond_Zopp s (Z.pos m) * 2 ^ e)
      else if Z.pos m mod 2 ^ (- e) =? 0
           then Some (cond_Zopp s (Z.pos m / 2 ^ (- e)))
           else None
  | _ => None
  end.

(** What [prev.devStats] is for [devStatsDiff]: missing ([undefined] or
    [null]), the statistics [update] stores (an object with an integer
    [size] and an integer [count]), or something else, on which this
    development does not follow the arithmetic of [devStatsDiff]. *)
Inductive StoredStats : Type :=
| StatsMissing
| StatsStored (stats : Stats.t)
| StatsForeign.

Definition storedStats (prev : Json) : StoredStats :=
  match prev with
  | JObject fields =>
      match lookup "devStats" fields with
      | None => StatsMissing
      | Some JNull => StatsMissing
      | Some (JObject stats) =>
          match lookup "size" stats, lookup "count" stats with
          | Some (JNumber bytes), Some (JNumber files) =>
              match integerOf bytes, integerOf files with
              | Some sz, Some ct => StatsStored {| Stats.size := sz; Stats.count := ct |}
              | _, _ => StatsForeign
              end
          | _, _ => StatsForeign
          end
      | Some _ => StatsForeign
      end
  | _ => StatsMissing
  end.

(** How a run of the whole command ends: it ends, or the table renderer is
    still looping after the given rounds, or the stored statistics are
    foreign. *)
Inductive Ending : Type :=
| Ended (run : Run)
| StillLooping
| ForeignStats.

(** [compare({ devStats, threshold })], for the sizes read from disk, the
    answer to the gist request and, when [devStats] is set, the outcome of
    [getDevStats()]. *)
Definition compareCommand `{Formatter} `{JsonParser} `{Differ}
           (fuel : nat) (origSizes : Snapshot) (fetched : Fetched) (threshold : Z)
           (devStats : bool) (curStats : result Stats.t)
  : Ending :=
  let sizes := cleanSizes origSizes in
  let '(logged, prev) := getGistContents fetched in
  match getProp prev "bundle" with
  | Throw error => Ended {| console := logged; outcome := Throw error |}
  | Ok bundle =>
      let diff := getDiff (orEmptyObject bundle) sizes in
      match diffTable fuel diff
              {| showTotal := true; collapseUnchanged := true;
                 omitUnchanged := false; minimumChangeThreshold := threshold |} with
      | None => StillLooping
      | Some markdownDiff =>
          let logged := (logged ++ [ConsoleLog markdownDiff])%list in
          if devStats then
            match curStats with
            | Throw error => Ended {| console := logged; outcome := Throw error |}
            | Ok stats =>
                let printed before :=
                  Ended {| console :=
                             (logged ++ [ConsoleLog (devStatsDiff stats before)])%list;
                           outcome := Ok tt |} in
                match prev with
                | None => printed None
                | Some stored =>
                    match storedStats stored with
                    | StatsMissing => printed None
                    | StatsStored before => printed (Some before)
                    | StatsForeign => ForeignStats
                    end
                end
            end
          else Ended {| console := logged; outcome := Ok tt |}
      end
  end.

(** ** The [update] command *)

(** [JSON.stringify(value, null, 2)] on a document. *)
Class JsonPrinter : Type := JSON_stringify : Json -> string.

(** A snapshot and the statistics as the documents they are stored as. *)
Definition snapshotJson (sizes : Snapshot) : Json :=
  JObject (map (fun '(name, bytes) => (name, JNumber (Z2F bytes))) sizes).

Definition statsJson (stats : Stats.t) : Json :=
  JObject [("size", JNumber (Z2F (Stats.size stats)));
           ("count", JNumber (Z2F (Stats.count stats)))].

(** The PATCH request of [updateGistContents]: the file it overwrites and
    the new content. *)
Record Patch : Type := { patchFile : string; patchContent : string }.

(** [updateGistContents(fileContents)]: the request it sends and what it
    writes to the console; [rejection] is the reason [fetch] rejects with,
    if it does.  The response is not looked at. *)
Definition updateGistContents `{JsonPrinter}
           (fileContents : Json) (rejection : option string)
  : Patch * list ConsoleLine :=
  let request := {| patchFile := GIST_FILE_NAME;
                    patchContent := JSON_stringify fileContents |} in
  match rejection with
  | None => (request, [])
  | Some reason =>
      (request, [ConsoleError "updateGistContents error" (Rejected reason)])
  end.

(** The document [update] builds: the sizes under [bundle], and the
    statistics under [devStats] when asked for. *)
Definition gistFileOf (sizes : Snapshot) (stats : option Stats.t) : Json :=
  JObject (("bundle", snapshotJson sizes)
             :: match stats with
                | Some st => [("devStats", statsJson st)]
                | None => []
                end).

Record UpdateRun : Type := {
  sent : option Patch;
  updateConsole : list ConsoleLine;
  updateOutcome : result unit
}.

(** [update({ devStats })] for the sizes read from disk, the outcome of
    [getDevStats()] and of the request. *)
Definition update `{JsonPrinter}
           (origSizes : Snapshot) (devStats : bool)
           (curStats : result Stats.t) (rejection : option string)
  : UpdateRun :=
  let sizes := cleanSizes origSizes in
  let send stats :=
    let '(request, logged) :=
      updateGistContents (gistFileOf sizes stats) rejection in
    {| sent := Some request; updateConsole := logged; updateOutcome := Ok tt |} in
  if devStats then
    match curStats with
    | Ok stats => send (Some stats)
    | Throw error =>
        {| sent := None; updateConsole := []; updateOutcome := Throw error |}
    end
  else send None.

(** ** More vocabulary of the statements *)

(** A row of four cells whose first cell is not empty, as [diffTable]
    builds them. *)
Definition fourCells (columns : list string) : bool :=
  match columns with
  | [name; _; _; _] => truthy name
  | _ => false
  end.

Definition iconCell (columns : list string) : string := nth 3 columns "".
Definition changeCell (columns : list string) : string := nth 2 columns "".

(** The keys of a snapshot. *)
Definition keys (obj : Snapshot) : list string := map fst obj.

(** A path of the build as [cleanSizes] keeps it and renames it. *)
Definition kept (entry : string * Z) : bool :=
  negb (includes excludePattern (fst entry)).

Definition trimmed (entry : string * Z) : string * Z :=
  (replaceFirst (fst entry) trimPathPattern "", snd entry).

(** The baseline a stored document stands for: its [bundle] when that is
    truthy, the document itself otherwise (the older format). *)
Definition baselineOf (jsonFile : Json) : Json :=
  match jsonFile with
  | JObject fields =>
      match lookup "bundle" fields with
      | Some bundle => if jsTruthy (Some bundle) then bundle else jsonFile
      | None => jsonFile
      end
  | _ => jsonFile
  end.

(** The options [compare] passes to [diffTable]. *)
Definition compareOptions (threshold : Z) : Options :=
  {| showTotal := true; collapseUnchanged := true;
     omitUnchanged := false; minimumChangeThreshold := threshold |}.

(** A snapshot in the older format that lists a file called [bundle], as
    text and as the document the text parses to. *)
Definition DQ : string := String "034"%char EmptyString.

Definition legacyText : string :=
  "{" ++ DQ ++ "bundle" ++ DQ ++ ": 123, " ++ DQ ++ "a.js" ++ DQ ++ ": 5}".

Definition legacyDoc : Json :=
  JObject [("bundle", JNumber (Z2F 123)); ("a.js", JNumber (Z2F 5))].

(** One round of the [forEach] of [cleanSizes]. *)
Definition cleanStep (newSizes : Snapshot) (entry : string * Z) : Snapshot :=
  assign newSizes (fst (trimmed entry)) (snd (trimmed entry)).

(** The tool's pattern with its group named, as in
    [\.(?<hash>\w{8})\.js$]. *)
Definition hashedJsNamed : RegExp :=
  {| exec := fun s =>
       match exec hashedJs s with
       | Some m =>
           Some {| matched := matched m; captures := captures m;
                   offset := offset m; namedGroups := true |}
       | None => None
       end |}.

(** A parser and a printer for one document: the printer writes a fixed
    text and the parser reads that text back as the document. *)
Definition printerOf (text : string) : JsonPrinter := fun _ => text.
Definition parserOf (text : string) (doc : Json) : JsonParser :=
  fun s => if String.eqb s text then Ok doc
           else Throw (SyntaxError "Unexpected token").

(** * Properties *)

(** ** Rounding *)

Lemma Math_round_half_up (x : number) (q : Q) :
  F2Q x = Some q ->
  exists n, Math_round x = Finite n /\ rounds_half_up q n.
Proof.
  destruct x as [s | s | | s m e]; cbn [F2Q Math_round]; try discriminate.
  - intros [= <-]. exists 0. split; [reflexivity|].
    split; [discriminate | reflexivity].
  - intros [= <-]. set (v := cond_Zopp s (Z.pos m)).
    destruct (0 <=? e) eqn:He.
    + exists (v * 2 ^ e). split; [reflexivity|].
      unfold rounds_half_up, Qle, Qlt; simpl. lia.
    + apply Z.leb_gt in He.
      assert (HD : 0 < 2 ^ (- e)) by (apply Z.pow_pos_nonneg; lia).
      assert (H2 : 2 ^ (1 - e) = 2 * 2 ^ (- e)).
      { replace (1 - e) with (Z.succ (- e)) by lia. apply Z.pow_succ_r. lia. }
      rewrite H2.
      set (D := 2 ^ (- e)) in *.
      exists ((2 * v + D) / (2 * D)). split; [reflexivity|].
      pose proof (Z.div_mod (2 * v + D) (2 * D) ltac:(lia)) as Hdm.
      pose proof (Z.mod_pos_bound (2 * v + D) (2 * D) ltac:(lia)) as Hb.
      set (n := (2 * v + D) / (2 * D)) in *.
      unfold rounds_half_up, Qle, Qlt; simpl.
      rewrite Z2Pos.id by exact HD.
      fold D. nia.
Qed.

Lemma rounds_half_up_unique (q : Q) (n n' : Z) :
  rounds_half_up q n -> rounds_half_up q n' -> n = n'.
Proof.
  intros [Hl Hu] [Hl' Hu'].
  pose proof (Qle_lt_trans _ _ _ Hl Hu') as H1.
  pose proof (Qle_lt_trans _ _ _ Hl' Hu) as H2.
  unfold Qlt in H1, H2; simpl in H1, H2. lia.
Qed.

(** C2, as the code has it: the percentage is the floating-point value of
    [(delta / originalSize) * 100] rounded to the nearest integer with a tie
    going to the larger integer, not away from zero; a raw percentage of
    -12.5 gives -12 and one of 12.5 gives 13.  When that floating-point
    value is not finite the percentage is an infinity or NaN. *)
Theorem percentage_rounds_half_up (delta originalSize : Z) :
  match F2Q (rawPercentage delta originalSize) with
  | Some q =>
      forall n, rounds_half_up q n <-> percentage delta originalSize = Finite n
  | None =>
      percentage delta originalSize = NotANumber
      \/ exists s, percentage delta originalSize = Infinite s
  end
  /\ percentage (-1) 8 = Finite (-12)
  /\ percentage 1 8 = Finite 13.
Proof.
  split; [| split; reflexivity].
  unfold percentage.
  destruct (F2Q (rawPercentage delta originalSize)) as [q|] eqn:Hq.
  - destruct (Math_round_half_up _ _ Hq) as [n0 [Hn0 Hr0]].
    intros n. split.
    + intros Hr. rewrite Hn0. f_equal. eapply rounds_half_up_unique; eassumption.
    + intros Hn. rewrite Hn0 in Hn. injection Hn as <-. exact Hr0.
  - destruct (rawPercentage delta originalSize) as [s | s | | s m e];
      cbn [F2Q] in Hq; try discriminate.
    + right. exists s. reflexivity.
    + left. reflexivity.
Qed.

(** C2, as the specification states it, fails: for delta -1 and original
    size 8 the raw percentage is exactly -12.5, which rounds to -13 away
    from zero, and the code computes -12. *)
Lemma percentage_not_half_away_from_zero :
  exists q,
    F2Q (rawPercentage (-1) 8) = Some q
    /\ (q == - (25 # 2))%Q
    /\ round_half_away_from_zero q = -13
    /\ percentage (-1) 8 = Finite (-12)
    /\ percentage (-1) 8 <> Finite (round_half_away_from_zero q).
Proof.
  eexists. split; [vm_compute; reflexivity|].
  split; [reflexivity|].
  split; [reflexivity|].
  split; [reflexivity|].
  vm_compute. discriminate.
Qed.

(** ** Delta classifier *)

Ltac icon_branches :=
  repeat match goal with
         | |- context [if ?b then _ else _] => destruct b eqn:?
         end.

(** ** Table renderer *)

Lemma last_in {A : Type} (l : list A) (d : A) : l <> [] -> In (last l d) l.
Proof.
  induction l as [|a l IH]; [congruence|].
  intros _. destruct l as [|b l].
  - left. reflexivity.
  - right. apply IH. discriminate.
Qed.

Lemma in_pop (columns : list string) (cell : string) :
  In cell (pop columns) -> In cell columns.
Proof.
  unfold pop. induction columns as [|a l IH]; [trivial|].
  destruct l as [|b l]; [contradiction|].
  intros [->|Hin]; [left; reflexivity | right; apply IH; exact Hin].
Qed.

Lemma allCellsEmpty_lastFalsy (rows : list (list string)) :
  allCellsEmpty rows -> forallb lastFalsy rows = true.
Proof.
  intros Hall. apply forallb_forall. intros columns Hin.
  destruct columns as [|a l]; [reflexivity|].
  unfold lastFalsy.
  rewrite (Hall _ Hin (last (a :: l) "")); [reflexivity|].
  apply last_in. discriminate.
Qed.

Lemma allCellsEmpty_pop (rows : list (list string)) :
  allCellsEmpty rows -> allCellsEmpty (map pop rows).
Proof.
  intros Hall columns Hin cell Hcell.
  apply in_map_iff in Hin. destruct Hin as [columns0 [<- Hin0]].
  apply (Hall _ Hin0). apply in_pop. exact Hcell.
Qed.

Lemma skipEmptyColumns_spins (fuel : nat) (rows : list (list string)) :
  allCellsEmpty rows -> skipEmptyColumns fuel rows = None.
Proof.
  revert rows. induction fuel as [|fuel IH]; intros rows Hall; simpl;
    rewrite (allCellsEmpty_lastFalsy _ Hall).
  - reflexivity.
  - apply IH. apply allCellsEmpty_pop. exact Hall.
Qed.

Lemma markdownTable_spins_on_empty_cells_aux
      (fuel : nat) (rows : list (list string)) :
  rows <> [] -> allCellsEmpty rows -> markdownTable fuel rows = None.
Proof.
  intros Hne Hall. unfold markdownTable.
  destruct rows as [|columns rows]; [congruence|].
  rewrite (skipEmptyColumns_spins _ _ Hall). reflexivity.
Qed.

(** The loop does stop as soon as some row holds a non-empty cell: a number
    of rounds one below the length of that row is enough. *)
Lemma skipEmptyColumns_stops (fuel : nat) :
  forall (rows : list (list string)) (columns : list string) (cell : string),
    In columns rows -> In cell columns -> truthy cell = true ->
    (List.length columns <= S fuel)%nat ->
    exists rows', skipEmptyColumns fuel rows = Some rows'.
Proof.
  induction fuel as [|fuel IH]; intros rows columns cell Hrow Hcell Ht Hlen; simpl;
    destruct (forallb lastFalsy rows) eqn:Hall; try (eexists; reflexivity).
  - exfalso.
    rewrite forallb_forall in Hall. specialize (Hall _ Hrow).
    destruct columns as [|a [|b l]]; simpl in *; try lia.
    destruct Hcell as [->|[]]. rewrite Ht in Hall. discriminate.
  - rewrite forallb_forall in Hall. pose proof (Hall _ Hrow) as Hlast.
    assert (Hne : columns <> []) by (intros ->; contradiction).
    pose proof (app_removelast_last "" Hne) as Happ.
    apply (IH (map pop rows) (pop columns) cell).
    + apply in_map. exact Hrow.
    + unfold pop. rewrite Happ in Hcell. apply in_app_or in Hcell.
      destruct Hcell as [Hin|[Heq|[]]]; [exact Hin|].
      exfalso. destruct columns as [|a l]; [congruence|].
      unfold lastFalsy in Hlast. rewrite Heq, Ht in Hlast. discriminate.
    + exact Ht.
    + unfold pop. apply (f_equal (@List.length string)) in Happ.
      rewrite length_app in Happ. simpl in Happ. lia.
Qed.

(** X7: the renderer returns exactly on the tables that have no row or hold
    a non-empty cell. *)
Lemma markdownTable_returns_iff (rows : list (list string)) :
  rows <> [] ->
  (exists fuel out, markdownTable fuel rows = Some out)
  <-> (exists columns cell,
          In columns rows /\ In cell columns /\ truthy cell = true).
Proof.
  intros Hne. split.
  - intros [fuel [out Hout]].
    destruct (existsb (existsb truthy) rows) eqn:Hex.
    + apply existsb_exists in Hex. destruct Hex as [columns [Hrow Hex]].
      apply existsb_exists in Hex. destruct Hex as [cell [Hcell Ht]].
      exists columns, cell. auto.
    + assert (Hall : allCellsEmpty rows).
      { intros columns Hrow [|c cell] Hcell; [reflexivity|]. exfalso.
        assert (existsb (existsb truthy) rows = true); [|congruence].
        apply existsb_exists. exists columns. split; [exact Hrow|].
        apply existsb_exists. exists (String c cell). split; [exact Hcell | reflexivity]. }
      rewrite (markdownTable_spins_on_empty_cells_aux fuel rows Hne Hall) in Hout.
      discriminate.
  - intros [columns [cell [Hrow [Hcell Ht]]]].
    destruct (skipEmptyColumns_stops (List.length columns) rows columns cell
                Hrow Hcell Ht ltac:(lia)) as [rows' Hrows'].
    exists (List.length columns). unfold markdownTable.
    destruct rows as [|first rest]; [congruence|]. rewrite Hrows'.
    destruct ((List.length (hd [] rows') =? 3)%nat && forallb changeIsZero rows');
      destruct (_ =? 0)%nat; eexists; reflexivity.
Qed.

(** ** Strings *)

Lemma append_assoc (a b c : string) : (a ++ b) ++ c = a ++ (b ++ c).
Proof.
  induction a as [|x a IH]; simpl; [reflexivity | rewrite IH; reflexivity].
Qed.

Lemma append_empty_r (a : string) : a ++ "" = a.
Proof.
  induction a as [|x a IH]; simpl; [reflexivity | rewrite IH; reflexivity].
Qed.

Lemma length_append (a b : string) :
  String.length (a ++ b) = (String.length a + String.length b)%nat.
Proof.
  induction a as [|x a IH]; simpl; [reflexivity | rewrite IH; reflexivity].
Qed.

(** ** Diff report builder *)

Section Report.
Context `{Formatter}.
Variable o : Options.

Lemma tally_from (files : list Diff) :
  forall t : Tally,
    fold_left (tallyFile o) files t
    = {| changedRows :=
           changedRows t ++ map columnsOf (filter (shownAsChanged o) files);
         unChangedRows :=
           unChangedRows t ++ map columnsOf (filter (shownAsUnchanged o) files);
         totalSize := totalSize t + sumSize files;
         totalDelta := totalDelta t + sumDelta files |}.
Proof.
  induction files as [|file files IH]; intros t.
  - simpl. rewrite !app_nil_r, !Z.add_0_r. destruct t; reflexivity.
  - cbn [fold_left]. rewrite IH.
    unfold tallyFile, shownAsChanged, shownAsUnchanged.
    cbn [filter sumSize sumDelta fold_right].
    destruct (isUnchanged o file), (omitUnchanged o), (collapseUnchanged o);
      cbn [andb negb changedRows unChangedRows totalSize totalDelta map];
      rewrite <- ?app_assoc; cbn [app]; f_equal;
      first [reflexivity | unfold sumSize, sumDelta; lia].
Qed.

Lemma tally_groups (files : list Diff) :
  tally o files
  = {| changedRows := map columnsOf (filter (shownAsChanged o) files);
       unChangedRows := map columnsOf (filter (shownAsUnchanged o) files);
       totalSize := sumSize files;
       totalDelta := sumDelta files |}.
Proof.
  unfold tally. rewrite tally_from. reflexivity.
Qed.

(** On the rows [diffTable] builds, whose first cell is a file name between
    backticks, three rounds of the column-dropping loop are enough. *)
Lemma markdownTable_of_files (fuel : nat) (files : list Diff) :
  exists out, markdownTable (3 + fuel) (map columnsOf files) = Some out.
Proof.
  destruct files as [|file files]; [eexists; reflexivity|].
  destruct (skipEmptyColumns_stops (3 + fuel) (map columnsOf (file :: files))
              (columnsOf file) ("`" ++ filename file ++ "`"))
    as [rows' Hrows'].
  - left. reflexivity.
  - left. reflexivity.
  - reflexivity.
  - simpl. lia.
  - unfold markdownTable. cbn [map]. cbn [map] in Hrows'. rewrite Hrows'.
    destruct ((List.length (hd [] rows') =? 3)%nat && forallb changeIsZero rows');
      destruct (_ =? 0)%nat; eexists; reflexivity.
Qed.

(** The report: the total lines if asked for, the table of the changed
    group, and the disclosure block around the table of the unchanged
    group if that group has a row. *)
Lemma diffTable_shape (fuel : nat) (files : list Diff) :
  exists main tail,
    markdownTable (3 + fuel) (map columnsOf (filter (shownAsChanged o) files))
    = Some main
    /\ match filter (shownAsUnchanged o) files with
       | [] => tail = ""
       | unchanged =>
           exists hidden,
             markdownTable (3 + fuel) (map columnsOf unchanged) = Some hidden
             /\ tail = detailsOpen ++ hidden ++ detailsClose
       end
    /\ diffTable (3 + fuel) files o
       = Some ((if showTotal o
                then totalLines (sumSize files) (sumDelta files) else "")
                 ++ main ++ tail).
Proof.
  destruct (markdownTable_of_files fuel (filter (shownAsChanged o) files))
    as [main Hmain].
  destruct (markdownTable_of_files fuel (filter (shownAsUnchanged o) files))
    as [hidden Hhidden].
  unfold diffTable. rewrite tally_groups.
  cbn [changedRows unChangedRows totalSize totalDelta].
  rewrite Hmain.
  destruct (filter (shownAsUnchanged o) files) as [|file unchanged] eqn:Hu.
  - exists main, "". split; [reflexivity|]. split; [reflexivity|].
    cbn [map]. rewrite append_empty_r.
    destruct (showTotal o); [|reflexivity].
    unfold totalLines. rewrite !append_assoc. reflexivity.
  - exists main, (detailsOpen ++ hidden ++ detailsClose).
    split; [reflexivity|]. split; [exists hidden; split; [exact Hhidden | reflexivity]|].
    cbn [map] in *. rewrite Hhidden.
    destruct (showTotal o); [|reflexivity].
    unfold totalLines. rewrite !append_assoc. reflexivity.
Qed.
End Report.

Lemma filter_nothing {A : Type} (f : A -> bool) (l : list A) :
  (forall x, f x = false) -> filter f l = [].
Proof.
  intros Hf. induction l as [|x l IH]; [reflexivity|].
  cbn [filter]. rewrite Hf. exact IH.
Qed.

(** C7: with [omitUnchanged] set, a file whose absolute delta is below the
    threshold gets a row in neither group (the changed group holds exactly
    the rows of the other files, the unchanged group is empty), while the
    totals, and the total lines printed from them, sum the sizes and deltas
    of all files. *)
Theorem omitted_files_still_counted `{Formatter}
        (fuel : nat) (files : list Diff) (total collapse : bool) (threshold : Z) :
  let o := {| showTotal := total; collapseUnchanged := collapse;
              omitUnchanged := true; minimumChangeThreshold := threshold |} in
  let t := tally o files in
  changedRows t
  = map columnsOf (filter (fun file => negb (Z.abs (delta file) <? threshold)) files)
  /\ unChangedRows t = []
  /\ totalSize t = sumSize files
  /\ totalDelta t = sumDelta files
  /\ exists main,
      markdownTable (3 + fuel) (changedRows t) = Some main
      /\ diffTable (3 + fuel) files o
         = Some ((if total then totalLines (sumSize files) (sumDelta files) else "")
                   ++ main).
Proof.
  intros o t.
  assert (Hc : filter (shownAsChanged o) files
               = filter (fun file => negb (Z.abs (delta file) <? threshold)) files).
  { apply filter_ext. intros file.
    unfold shownAsChanged, isUnchanged. cbn.
    destruct (Z.abs (delta file) <? threshold), collapse; reflexivity. }
  assert (Hu : filter (shownAsUnchanged o) files = []).
  { apply filter_nothing. intros file.
    unfold shownAsUnchanged, isUnchanged. cbn.
    destruct (Z.abs (delta file) <? threshold); reflexivity. }
  subst t. rewrite tally_groups. cbn [changedRows unChangedRows totalSize totalDelta].
  rewrite Hc, Hu.
  repeat apply conj; try reflexivity.
  destruct (diffTable_shape o fuel files) as [main [tail [Hmain [Htail Hout]]]].
  rewrite Hu in Htail. subst tail. rewrite Hc in Hmain.
  exists main. split; [exact Hmain|].
  rewrite Hout, append_empty_r. reflexivity.
Qed.

(** C8, as the code has it: with [showTotal] set the report is the report
    without totals with two lines in front of it, first the size change
    (text and icon of the delta classifier on the summed delta and the
    summed size minus the summed delta), then the total size, each followed
    by an empty line. *)
Theorem total_lines_prepended `{Formatter}
        (fuel : nat) (files : list Diff) (collapse omit : bool) (threshold : Z) :
  let o total := {| showTotal := total; collapseUnchanged := collapse;
                    omitUnchanged := omit; minimumChangeThreshold := threshold |} in
  let totalSize := sumSize files in
  let totalDelta := sumDelta files in
  exists body,
    diffTable (3 + fuel) files (o false) = Some body
    /\ diffTable (3 + fuel) files (o true)
       = Some ("**Size Change:** "
                 ++ getDeltaText totalDelta (totalSize - totalDelta) ++ " "
                 ++ iconForDifference totalDelta (totalSize - totalDelta)
                 ++ LF ++ LF
                 ++ "**Total Size:** " ++ prettyBytes totalSize ++ LF ++ LF
                 ++ body).
Proof.
  intros o totalSize totalDelta.
  destruct (diffTable_shape (o false) fuel files) as [main [tail [Hm [Ht Hout]]]].
  destruct (diffTable_shape (o true) fuel files) as [main' [tail' [Hm' [Ht' Hout']]]].
  change (filter (shownAsChanged (o true)) files)
    with (filter (shownAsChanged (o false)) files) in Hm'.
  change (filter (shownAsUnchanged (o true)) files)
    with (filter (shownAsUnchanged (o false)) files) in Ht'.
  rewrite Hm in Hm'. injection Hm' as <-.
  assert (tail' = tail) as ->.
  { destruct (filter (shownAsUnchanged (o false)) files) as [|file rest].
    - congruence.
    - destruct Ht as [hidden [Hh ->]], Ht' as [hidden' [Hh' ->]].
      rewrite Hh in Hh'. injection Hh' as <-. reflexivity. }
  exists (main ++ tail). split; [exact Hout|].
  rewrite Hout'. cbn [showTotal o]. unfold totalLines.
  rewrite !append_assoc. reflexivity.
Qed.

(** C8, as the specification states it, fails: on the empty list of files
    the report starts with the size change line; the total size line comes
    second. *)
Lemma total_size_line_is_not_first :
  exists out,
    @diffTable plainBytes 3 []
      {| showTotal := true; collapseUnchanged := true;
         omitUnchanged := false; minimumChangeThreshold := 10 |} = Some out
    /\ out = "**Size Change:** 0 B " ++ icon_new ++ LF ++ LF
               ++ "**Total Size:** 0 B" ++ LF ++ LF
    /\ prefix "**Total Size:**" out = false.
Proof.
  eexists. split; [reflexivity|]. split; reflexivity.
Qed.

(** C9: with [collapseUnchanged] set and [omitUnchanged] clear, the files
    whose absolute delta is below the threshold make up the unchanged group
    and the others the changed group; the changed group is rendered first,
    and when the unchanged group has a row its own rendering follows inside
    the disclosure block titled View Unchanged. *)
Theorem unchanged_files_collapsed `{Formatter}
        (fuel : nat) (files : list Diff) (total : bool) (threshold : Z) :
  let o := {| showTotal := total; collapseUnchanged := true;
              omitUnchanged := false; minimumChangeThreshold := threshold |} in
  let t := tally o files in
  let lines := if total then totalLines (sumSize files) (sumDelta files) else "" in
  changedRows t
  = map columnsOf (filter (fun file => negb (Z.abs (delta file) <? threshold)) files)
  /\ unChangedRows t
     = map columnsOf (filter (fun file => Z.abs (delta file) <? threshold) files)
  /\ exists main,
      markdownTable (3 + fuel) (changedRows t) = Some main
      /\ match unChangedRows t with
         | [] => diffTable (3 + fuel) files o = Some (lines ++ main)
         | rows =>
             exists hidden,
               markdownTable (3 + fuel) rows = Some hidden
               /\ diffTable (3 + fuel) files o
                  = Some (lines ++ main ++ LF ++ LF
                            ++ "<details><summary>ℹ️ <strong>View Unchanged</strong></summary>"
                            ++ LF ++ LF ++ hidden ++ LF ++ LF ++ "</details>" ++ LF ++ LF)
         end.
Proof.
  intros o t lines.
  assert (Hc : filter (shownAsChanged o) files
               = filter (fun file => negb (Z.abs (delta file) <? threshold)) files).
  { apply filter_ext. intros file.
    unfold shownAsChanged, isUnchanged. cbn.
    destruct (Z.abs (delta file) <? threshold); reflexivity. }
  assert (Hu : filter (shownAsUnchanged o) files
               = filter (fun file => Z.abs (delta file) <? threshold) files).
  { apply filter_ext. intros file.
    unfold shownAsUnchanged, isUnchanged. cbn.
    destruct (Z.abs (delta file) <? threshold); reflexivity. }
  subst t. rewrite tally_groups. cbn [changedRows unChangedRows].
  destruct (diffTable_shape o fuel files) as [main [tail [Hmain [Htail Hout]]]].
  rewrite Hc in *. rewrite Hu in *.
  split; [reflexivity|]. split; [reflexivity|].
  exists main. split; [exact Hmain|].
  destruct (filter (fun file => Z.abs (delta file) <? threshold) files)
    as [|file rest].
  - subst tail. cbn [map]. rewrite Hout, append_empty_r. reflexivity.
  - destruct Htail as [hidden [Hh ->]]. cbn [map] in *.
    exists hidden. split; [exact Hh|].
    rewrite Hout. unfold detailsOpen, detailsClose, lines.
    rewrite !append_assoc. reflexivity.
Qed.

(** C10: on the empty list of files with [showTotal] set the report is the
    two total lines and nothing else: a size change of zero bytes, which
    carries the new-file icon because the original total is zero, and a
    total size of zero bytes.  Both groups are empty, the table of no rows
    is the empty text without a header row, and no disclosure block is
    added. *)
Theorem empty_diff_report `{Formatter}
        (fuel : nat) (collapse omit : bool) (threshold : Z) :
  let o := {| showTotal := true; collapseUnchanged := collapse;
              omitUnchanged := omit; minimumChangeThreshold := threshold |} in
  tally o [] = emptyTally
  /\ markdownTable fuel [] = Some ""
  /\ getDeltaText 0 0 = prettyBytes 0
  /\ diffTable fuel [] o
     = Some ("**Size Change:** " ++ prettyBytes 0 ++ " " ++ icon_new ++ LF ++ LF
               ++ "**Total Size:** " ++ prettyBytes 0 ++ LF ++ LF).
Proof.
  intros o. unfold diffTable, tally.
  cbn [fold_left emptyTally changedRows unChangedRows totalSize totalDelta].
  repeat apply conj; reflexivity.
Qed.

(** ** Hash-stripping normalizer *)

Lemma prefix_split (p s : string) :
  prefix p s = true -> s = p ++ drop (String.length p) s.
Proof.
  revert s. induction p as [|a p IH]; intros s Hp; [reflexivity|].
  destruct s as [|b s]; [discriminate|].
  cbn [prefix] in Hp. destruct (ascii_dec a b) as [->|]; [|discriminate].
  cbn. f_equal. apply IH. exact Hp.
Qed.

Lemma replaceFirst_length (s p r : string) :
  String.length r = String.length p ->
  String.length (replaceFirst s p r) = String.length s.
Proof.
  intros Hr. induction s as [|c s IH].
  - cbn [replaceFirst]. destruct (prefix p "") eqn:Hp; [|reflexivity].
    rewrite (prefix_split _ _ Hp) at 2.
    rewrite !length_append. lia.
  - cbn [replaceFirst]. destruct (prefix p (String c s)) eqn:Hp.
    + rewrite (prefix_split _ _ Hp) at 2.
      rewrite !length_append. lia.
    + cbn [String.length]. rewrite IH. reflexivity.
Qed.

(** What [replaceFirst] does: nothing when the pattern does not occur, and
    otherwise it swaps one occurrence for the replacement. *)
Lemma replaceFirst_occurrence (s p r : string) :
  (includes p s = false /\ replaceFirst s p r = s)
  \/ (exists a b, s = a ++ p ++ b /\ replaceFirst s p r = a ++ r ++ b).
Proof.
  induction s as [|c s IH]; cbn [replaceFirst includes].
  - destruct (prefix p "") eqn:Hp.
    + right. exists "", (drop (String.length p) "").
      split; [apply prefix_split; exact Hp | reflexivity].
    + left. split; reflexivity.
  - destruct (prefix p (String c s)) eqn:Hp.
    + right. exists "", (drop (String.length p) (String c s)).
      split; [apply prefix_split; exact Hp | reflexivity].
    + destruct IH as [[Hno ->]|[a [b [Hs ->]]]].
      * left. split; [exact Hno | reflexivity].
      * right. exists (String c a), b. rewrite Hs. split; reflexivity.
Qed.

Lemma maskAll_length (hash : string) :
  String.length (maskAll hash) = String.length hash.
Proof.
  induction hash as [|c hash IH]; cbn; [reflexivity | rewrite IH; reflexivity].
Qed.

Lemma maskAll_stars (hash : string) :
  noLineTerminator hash = true -> maskAll hash = stars (String.length hash).
Proof.
  induction hash as [|c hash IH]; cbn [noLineTerminator maskAll stars String.length];
    [reflexivity|].
  intros Hn. apply andb_prop in Hn. destruct Hn as [Hc Hrest].
  apply negb_true_iff in Hc. rewrite Hc, (IH Hrest). reflexivity.
Qed.

Lemma maskCaptures_length (hashes : list string) :
  forall str, String.length (maskCaptures str hashes) = String.length str.
Proof.
  unfold maskCaptures.
  induction hashes as [|hash hashes IH]; intros str; cbn [fold_left]; [reflexivity|].
  rewrite IH. apply replaceFirst_length. apply maskAll_length.
Qed.

Lemma dropLast2_two_more {A : Type} (l : list A) (a b : A) :
  dropLast2 (l ++ [a; b]) = l.
Proof.
  unfold dropLast2. rewrite length_app. cbn [List.length].
  replace (List.length l + 2 - 2)%nat with (List.length l) by lia.
  rewrite firstn_app, Nat.sub_diag, firstn_all. cbn [firstn]. apply app_nil_r.
Qed.

Lemma dropLast2_replacerArgs (m : Match) (input : string) :
  namedGroups m = false ->
  dropLast2 (replacerArgs m input) = map ofCapture (captures m).
Proof.
  intros Hn. unfold replacerArgs. rewrite Hn, app_nil_r.
  apply dropLast2_two_more.
Qed.

Lemma filter_notNull_captures (cs : list (option string)) :
  filter notNull (map ofCapture cs) = map VString (participating cs).
Proof.
  induction cs as [|[hash|] cs IH]; cbn; [reflexivity | f_equal; exact IH | exact IH].
Qed.

Lemma maskEach_strings (hashes : list string) :
  forall str, maskEach str (map VString hashes) = Ok (maskCaptures str hashes).
Proof.
  unfold maskCaptures.
  induction hashes as [|hash hashes IH]; intros str; [reflexivity|].
  cbn [map maskEach maskOne orEmpty bind fold_left]. apply IH.
Qed.

(** What the replacer returns on the arguments of a match of a pattern
    without named groups. *)
Lemma replacer_masks (m : Match) (input : string) :
  namedGroups m = false ->
  replacer (matched m) (replacerArgs m input)
  = Ok match participating (captures m) with
       | [] => ""
       | hashes => maskCaptures (matched m) hashes
       end.
Proof.
  intros Hn. unfold replacer.
  rewrite (dropLast2_replacerArgs _ _ Hn), filter_notNull_captures.
  destruct (participating (captures m)) as [|hash hashes]; [reflexivity|].
  apply (maskEach_strings (hash :: hashes)).
Qed.

(** With named groups the replacer receives one more argument, so the match
    offset survives the [slice]; unless it is zero it is a number without a
    [replace] method and the normalizer throws. *)
Lemma replacer_throws_with_named_groups (str input hash : string) (n : nat) :
  replacer str
    (replacerArgs {| matched := str; captures := [Some hash]; offset := S n;
                     namedGroups := true |} input)
  = Throw (TypeError "hash.replace is not a function").
Proof.
  unfold replacer, replacerArgs, dropLast2. cbn.
  reflexivity.
Qed.

(** C3, as the code has it, for a pattern without named groups.  A file name
    the pattern does not match is returned unchanged.  In one it matches, the
    matched text is replaced by its masked form: for every capture group
    that took part, the trailing ones included, the first occurrence of the
    captured value gives way to [maskAll] of that value, a text of the same
    length in which every character but a line terminator is a star; the
    two trailing values the code drops are the match offset and the input,
    not capture groups.  When no group took part the matched text is
    removed. *)
Theorem stripHash_masks_every_group `{RegExpEngine}
        (source : string) (re : RegExp) (fileName : string) :
  truthy source = true ->
  RegExp_new source = Ok re ->
  exists normalize,
    stripHash (Some source) = Some normalize
    /\ match exec re fileName with
       | None => normalize fileName = Ok fileName
       | Some m =>
           namedGroups m = false ->
           let hashes := participating (captures m) in
           let masked := match hashes with
                         | [] => ""
                         | _ => maskCaptures (matched m) hashes
                         end in
           normalize fileName
           = Ok (take (offset m) fileName ++ masked
                   ++ drop (offset m + String.length (matched m)) fileName)
           /\ (hashes <> [] -> String.length masked = String.length (matched m))
       end
    /\ (forall hash, noLineTerminator hash = true ->
                     maskAll hash = stars (String.length hash)).
Proof.
  intros Hsource Hre. unfold stripHash. rewrite Hsource.
  eexists. split; [reflexivity|]. split; [| exact maskAll_stars].
  rewrite Hre. cbn [bind]. unfold String_replace.
  destruct (exec re fileName) as [m|]; [|reflexivity].
  intros Hn. cbv zeta. rewrite (replacer_masks _ _ Hn). cbn [bind].
  destruct (participating (captures m)) as [|hash hashes].
  - split; [reflexivity | congruence].
  - split; [reflexivity | intros _; apply maskCaptures_length].
Qed.

Lemma stripHash_masks_every_group_witness :
  exists normalize,
    @stripHash (fun _ => Ok hashedJs) (Some hashedJsSource) = Some normalize
    /\ normalize "app.a1b2c3d4.js" = Ok "app.********.js"
    /\ normalize "app.js" = Ok "app.js".
Proof.
  destruct (@stripHash_masks_every_group (fun _ => Ok hashedJs)
              hashedJsSource hashedJs "app.a1b2c3d4.js" eq_refl eq_refl)
    as [normalize [Hs [Hm _]]].
  exists normalize. split; [exact Hs|].
  split; [exact (proj1 (Hm eq_refl))|].
  injection Hs as <-. reflexivity.
Defined.

(** C3, as the specification states it, fails: the pattern of the command
    line tool has one capture group, which is then its trailing group, and
    its value is masked all the same; sparing it would leave no value to
    mask and empty the matched text. *)
Lemma trailing_group_is_masked :
  exists normalize m,
    @stripHash (fun _ => Ok hashedJs) (Some hashedJsSource) = Some normalize
    /\ exec hashedJs "app.a1b2c3d4.js" = Some m
    /\ captures m = [Some "a1b2c3d4"]
    /\ normalize "app.a1b2c3d4.js" = Ok "app.********.js"
    /\ normalize_sparing_trailing_groups hashedJs "app.a1b2c3d4.js" = Ok "app"
    /\ normalize "app.a1b2c3d4.js"
       <> normalize_sparing_trailing_groups hashedJs "app.a1b2c3d4.js".
Proof.
  eexists. eexists.
  split; [reflexivity|]. split; [reflexivity|].
  split; [reflexivity|]. split; [reflexivity|]. split; [reflexivity|].
  discriminate.
Qed.

(** ** The stored baseline *)

(** The ways the [try] block of [getGistContents] ends in an exception. *)
Lemma readGist_failures `{JsonParser} :
  (forall reason, readGist (FetchRejects reason) = Throw (Rejected reason))
  /\ (forall statusText json,
         readGist (Response false statusText json)
         = Throw (Error ("Failed to fetch gist: " ++ statusText)))
  /\ (forall statusText error,
         readGist (Response true statusText (Throw error)) = Throw error)
  /\ (forall statusText files file error,
         lookup GIST_FILE_NAME files = Some file ->
         JSON_parse (content file) = Throw error ->
         readGist (Response true statusText (Ok files)) = Throw error)
  /\ (forall statusText files file,
         lookup GIST_FILE_NAME files = Some file ->
         JSON_parse (content file) = Ok JNull ->
         exists error, readGist (Response true statusText (Ok files)) = Throw error).
Proof.
  repeat apply conj; try reflexivity.
  - intros statusText files file error Hl Hp. cbn. rewrite Hl, Hp. reflexivity.
  - intros statusText files file Hl Hp. cbn. rewrite Hl, Hp. eexists. reflexivity.
Qed.

(** A gist without the stats file is an empty baseline, and [compare] goes
    on to diff against the empty object. *)
Lemma compare_without_stored_file `{Formatter} `{JsonParser} `{Differ}
      (fuel : nat) (origSizes : Snapshot) (statusText : string) (threshold : Z) :
  getGistContents (Response true statusText (Ok []))
  = ([], Some (JObject [("bundle", JObject [])]))
  /\ compare fuel origSizes (Response true statusText (Ok [])) threshold
     = match diffTable fuel (getDiff (JObject []) (cleanSizes origSizes))
               {| showTotal := true; collapseUnchanged := true;
                  omitUnchanged := false; minimumChangeThreshold := threshold |} with
       | Some report => Some {| console := [ConsoleLog report]; outcome := Ok tt |}
       | None => None
       end.
Proof.
  split; reflexivity.
Qed.

(** C1 fails on the code: when the request or the decoding of the stored
    document throws, [getGistContents] logs the error and resolves to
    [undefined]; [compare] then reads [prev.bundle] of [undefined] and ends
    in a TypeError before any report is built or printed. *)
Theorem compare_fails_on_failed_fetch `{Formatter} `{JsonParser} `{Differ}
        (fuel : nat) (origSizes : Snapshot) (fetched : Fetched) (threshold : Z)
        (error : exn) :
  readGist fetched = Throw error ->
  getGistContents fetched = ([ConsoleError "getGistContents error" error], None)
  /\ compare fuel origSizes fetched threshold
     = Some {| console := [ConsoleError "getGistContents error" error];
               outcome :=
                 Throw (TypeError
                          "Cannot read properties of undefined (reading 'bundle')") |}.
Proof.
  intros Hfail. unfold compare, getGistContents. rewrite Hfail.
  split; reflexivity.
Qed.

Lemma compare_fails_on_failed_fetch_witness :
  let fetched := Response true "OK" (Ok [(GIST_FILE_NAME, {| content := "{" |})]) in
  let error := SyntaxError "Unexpected end of JSON input" in
  @getGistContents rejectingParser fetched
  = ([ConsoleError "getGistContents error" error], None)
  /\ @compare plainBytes rejectingParser noDiff 3
       [("/build/output/app.js", 100)] fetched 10
     = Some {| console := [ConsoleError "getGistContents error" error];
               outcome :=
                 Throw (TypeError
                          "Cannot read properties of undefined (reading 'bundle')") |}.
Proof.
  exact (@compare_fails_on_failed_fetch plainBytes rejectingParser noDiff 3
           [("/build/output/app.js", 100)]
           (Response true "OK" (Ok [(GIST_FILE_NAME, {| content := "{" |})]))
           10 (SyntaxError "Unexpected end of JSON input") eq_refl).
Defined.

(** * Further properties *)

(** ** Integer byte counts as Numbers *)

Lemma digits2_pos_size (m : positive) : digits2_pos m = Pos.size m.
Proof.
  induction m as [m IH | m IH |]; simpl; [rewrite IH | rewrite IH |]; reflexivity.
Qed.

Lemma digits2_pos_shift (k : positive) (m : positive) :
  Z.pos (digits2_pos (Pos.iter xO m k)) = Z.pos (digits2_pos m) + Z.pos k.
Proof.
  induction k as [|k IH] using Pos.peano_ind.
  - simpl. lia.
  - rewrite Pos.iter_succ. cbn [digits2_pos]. lia.
Qed.

Lemma digits2_pos_safe (m : positive) :
  Z.pos m < 2 ^ 53 -> Z.pos (digits2_pos m) <= 53.
Proof.
  intros Hm. rewrite digits2_pos_size.
  destruct (Z.le_gt_cases (Z.pos (Pos.size m)) 53) as [|Hgt]; [assumption|].
  exfalso. pose proof (Pos.size_le m) as Hle.
  apply Pos2Z.pos_le_pos in Hle. rewrite Pos2Z.inj_pow in Hle.
  assert (H54 : 2 ^ 54 <= 2 ^ Z.pos (Pos.size m)) by (apply Z.pow_le_mono_r; lia).
  change (2 ^ 53) with 9007199254740992 in Hm.
  change (2 ^ 54) with 18014398509481984 in H54. lia.
Qed.

(** A mantissa of 53 bits with an exponent in range is left as it is. *)
Lemma binary_round_aux_exact (s : bool) (m : positive) (e : Z) :
  Z.pos (digits2_pos m) = 53 -> -1074 <= e <= 971 ->
  binary_round_aux prec emax s (Z.pos m) e loc_Exact = S754_finite s m e.
Proof.
  intros Hdig He.
  unfold binary_round_aux, shr_fexp, fexp, emin, Zdigits2, prec, emax.
  rewrite Hdig.
  replace (IntDef.Z.max (53 + e - 53) (3 - 1024 - 53) - e) with 0 by lia.
  cbn [shr shr_record_of_loc shr_m loc_of_shr_record round_nearest_even].
  rewrite Hdig.
  replace (IntDef.Z.max (53 + e - 53) (3 - 1024 - 53) - e) with 0 by lia.
  cbn [shr shr_record_of_loc shr_m].
  destruct (Z.leb_spec e (1024 - 53)); [reflexivity | lia].
Qed.

(** A non-zero integer of magnitude below [2^53] is a finite Number of its
    own sign. *)
Lemma Z2F_finite (d : Z) :
  d <> 0 -> Z.abs d < 2 ^ 53 ->
  exists m e, Z2F d = S754_finite (d <? 0) m e.
Proof.
  intros Hd Hb.
  assert (Hpos : forall (s : bool) (m : positive),
             Z.pos m < 2 ^ 53 ->
             exists m' e, binary_round prec emax s m 0 = S754_finite s m' e).
  { intros s m Hm. pose proof (digits2_pos_safe m Hm) as Hdig.
    unfold binary_round, shl_align, fexp, emin, prec, emax.
    remember (Z.pos (digits2_pos m)) as dg eqn:Hdg.
    assert (Hdg0 : 0 < dg) by lia.
    replace (IntDef.Z.max (dg + 0 - 53) (3 - 1024 - 53)) with (dg - 53) by lia.
    destruct (dg - 53 - 0) as [|p|p] eqn:Hsh; try lia.
    - rewrite binary_round_aux_exact by lia. eauto.
    - rewrite binary_round_aux_exact; [eauto | | lia].
      rewrite digits2_pos_shift. lia. }
  unfold Z2F, binary_normalize.
  destruct d as [|m|m]; [congruence | |]; cbn [Z.ltb Z.compare]; apply Hpos; exact Hb.
Qed.

Lemma binary_round_aux_sign (s : bool) (m e : Z) (l : location) :
  binary_round_aux prec emax s m e l
  = (if s then SFopp (binary_round_aux prec emax false m e l)
     else binary_round_aux prec emax false m e l).
Proof.
  destruct s; [|reflexivity].
  unfold binary_round_aux.
  destruct (shr_fexp prec emax m e l) as [mrs' e'].
  destruct (shr_fexp prec emax _ e' loc_Exact) as [mrs'' e''].
  destruct (shr_m mrs''); [reflexivity | | reflexivity].
  destruct (e'' <=? emax - prec); reflexivity.
Qed.

Lemma Z2F_opp (d : Z) : d <> 0 -> Z2F (- d) = SFopp (Z2F d).
Proof.
  intros Hd. unfold Z2F, binary_normalize.
  destruct d as [|m|m]; [congruence | |]; cbn [Z.opp]; unfold binary_round;
    destruct (shl_align m 0 _) as [mz ez];
    rewrite (binary_round_aux_sign true); [reflexivity|].
  destruct (binary_round_aux prec emax false (Z.pos mz) ez loc_Exact);
    cbn [SFopp]; rewrite ?Bool.negb_involutive; reflexivity.
Qed.

Lemma div_eucl_shift (m : positive) :
  Z.div_eucl (Z.shiftl (Z.pos m) 53) (Z.pos m) = (2 ^ 53, 0).
Proof.
  rewrite Z.shiftl_mul_pow2 by lia.
  pose proof (Z.div_mul (2 ^ 53) (Z.pos m) ltac:(lia)) as Hq.
  pose proof (Z.mod_mul (2 ^ 53) (Z.pos m)) as Hr.
  rewrite Z.mul_comm in Hq, Hr.
  unfold Z.div, Z.modulo in Hq, Hr.
  destruct (Z.div_eucl (Z.pos m * 2 ^ 53) (Z.pos m)) as [q r].
  cbn [fst snd] in Hq, Hr. rewrite Hq, Hr; [reflexivity | lia].
Qed.

(** A finite Number divided by its negation is minus one, and times one
    hundred minus one hundred. *)
Lemma percentage_of_negation (d : Z) :
  d <> 0 ->
  (exists s m e, Z2F d = S754_finite s m e) ->
  percentage d (- d) = Finite (-100).
Proof.
  intros Hd [s [m [e Hx]]].
  unfold percentage, rawPercentage. rewrite (Z2F_opp d Hd), Hx.
  cbn [SFopp]. unfold js_div, SFdiv, SFdiv_core_binary.
  replace (Z.min (fexp prec emax (Zdigits2 (Z.pos m) + e - (Zdigits2 (Z.pos m) + e)))
                 (e - e)) with (-53)
    by (rewrite Z.sub_diag, Z.sub_diag; reflexivity).
  rewrite Z.sub_diag. cbn [Z.sub Z.opp Z.add].
  rewrite div_eucl_shift.
  replace (new_location (Z.pos m) 0) with loc_Exact
    by (unfold new_location; destruct (Z.even (Z.pos m)); reflexivity).
  destruct s; vm_compute; reflexivity.
Qed.

(** ** Rows of the report *)

(** X1: the row of a removed file (current size zero, a non-zero delta of
    magnitude below [2^53]) shows the formatted zero size, the delta text
    ending in [ (removed)] and the trophy icon: the percentage is minus one
    hundred whatever the size was. *)
Theorem removed_file_row `{Formatter} (file : Diff) :
  size file = 0 -> delta file <> 0 -> Z.abs (delta file) < 2 ^ 53 ->
  percentage (delta file) (size file - delta file) = Finite (-100)
  /\ columnsOf file
     = [ "`" ++ filename file ++ "`";
         prettyBytes 0;
         ((if 0 <? delta file then "+" else "") ++ prettyBytes (delta file))
           ++ " (removed)";
         icon_trophy_shrink ].
Proof.
  intros Hs Hd Hb.
  assert (Hp : percentage (delta file) (- delta file) = Finite (-100)).
  { apply percentage_of_negation; [exact Hd|].
    destruct (Z2F_finite _ Hd Hb) as [m [e Hx]]. eauto. }
  unfold columnsOf. rewrite Hs. cbn [Z.sub Z.add]. split; [exact Hp|].
  unfold getDeltaText, iconForDifference. rewrite Hp.
  destruct (Z.eqb_spec (Z.abs (delta file)) 0); [lia|].
  destruct (Z.eqb_spec (- delta file) 0); [lia|].
  rewrite Z.eqb_refl. reflexivity.
Qed.

Lemma removed_file_row_witness :
  @columnsOf plainBytes {| filename := "old.js"; size := 0; delta := -200 |}
  = ["`old.js`"; "0 B"; "-200 B (removed)"; icon_trophy_shrink].
Proof.
  exact (proj2 (@removed_file_row plainBytes
                  {| filename := "old.js"; size := 0; delta := -200 |}
                  eq_refl ltac:(discriminate) eq_refl)).
Defined.

Lemma percentage_of_zero (originalSize : Z) :
  percentage 0 originalSize = Finite 0 \/ percentage 0 originalSize = NotANumber.
Proof.
  unfold percentage, rawPercentage.
  change (Z2F 0) with (S754_zero false).
  destruct (Z2F originalSize) as [s | s | | s m e]; [right | left | right | left];
    reflexivity.
Qed.

Lemma columnsOf_unchanged `{Formatter} (file : Diff) :
  delta file = 0 -> size file <> 0 ->
  columnsOf file
  = [ "`" ++ filename file ++ "`"; prettyBytes (size file); prettyBytes 0; "" ].
Proof.
  intros Hd Hs. unfold columnsOf, getDeltaText, iconForDifference.
  rewrite Hd, Z.sub_0_r. cbn [Z.abs Z.eqb Z.ltb Z.compare].
  destruct (Z.eqb_spec (size file) 0); [contradiction|].
  destruct (percentage_of_zero (size file)) as [-> | ->]; reflexivity.
Qed.

(** X2: the row of a file whose size did not change (delta zero, size not
    zero) shows the formatted size, the formatted zero delta without a
    suffix, and no icon. *)
Theorem unchanged_file_row `{Formatter} (file : Diff) :
  delta file = 0 -> size file <> 0 ->
  columnsOf file
  = [ "`" ++ filename file ++ "`"; prettyBytes (size file); prettyBytes 0; "" ]
  /\ iconForDifference 0 (size file) = "".
Proof.
  intros Hd Hs. split; [apply columnsOf_unchanged; assumption|].
  unfold iconForDifference.
  destruct (Z.eqb_spec (size file) 0); [contradiction|].
  destruct (percentage_of_zero (size file)) as [-> | ->]; reflexivity.
Qed.

Lemma unchanged_file_row_witness :
  @columnsOf plainBytes {| filename := "b.js"; size := 500; delta := 0 |}
  = ["`b.js`"; "500 B"; "0 B"; ""].
Proof.
  exact (proj1 (@unchanged_file_row plainBytes
                  {| filename := "b.js"; size := 500; delta := 0 |}
                  eq_refl ltac:(discriminate))).
Defined.

(** ** Columns of the table *)

Lemma fourCells_inv (columns : list string) :
  fourCells columns = true ->
  exists a b c d, columns = [a; b; c; d] /\ truthy a = true.
Proof.
  destruct columns as [|a [|b [|c [|d [|x l]]]]]; cbn; try discriminate.
  intros Ha. exists a, b, c, d. split; [reflexivity | exact Ha].
Qed.

Lemma forallb_negb_existsb {A : Type} (f : A -> bool) (l : list A) :
  forallb (fun x => negb (f x)) l = negb (existsb f l).
Proof.
  induction l as [|x l IH]; [reflexivity|].
  cbn. rewrite IH. destruct (f x); reflexivity.
Qed.

Lemma lastFalsy_fourCells (rows : list (list string)) :
  forallb fourCells rows = true ->
  forallb lastFalsy rows = negb (existsb (fun r => truthy (iconCell r)) rows)
  /\ forallb lastFalsy (map pop rows)
     = negb (existsb (fun r => truthy (changeCell r)) rows)
  /\ forallb changeIsZero (map pop rows) = forallb changeIsZero rows
  /\ (rows <> [] -> List.length (hd [] rows) = 4%nat
                    /\ List.length (hd [] (map pop rows)) = 3%nat
                    /\ List.length (hd [] (map pop (map pop rows))) = 2%nat).
Proof.
  intros Hall. rewrite <- !forallb_negb_existsb.
  induction rows as [|r rows IH].
  - repeat split; congruence.
  - cbn [forallb] in Hall. apply andb_prop in Hall. destruct Hall as [Hr Hrows].
    destruct (fourCells_inv _ Hr) as [a [b [c [d [-> Ha]]]]].
    destruct (IH Hrows) as [H1 [H2 [H3 _]]].
    cbn [forallb map]. rewrite H1, H2, H3.
    repeat split; reflexivity.
Qed.

Lemma skipEmptyColumns_now (fuel : nat) (rows : list (list string)) :
  forallb lastFalsy rows = false -> skipEmptyColumns fuel rows = Some rows.
Proof.
  intros H. destruct fuel; cbn; rewrite H; reflexivity.
Qed.

Lemma skipEmptyColumns_once (fuel : nat) (rows : list (list string)) :
  forallb lastFalsy rows = true -> forallb lastFalsy (map pop rows) = false ->
  skipEmptyColumns (S fuel) rows = Some (map pop rows).
Proof.
  intros H1 H2. cbn [skipEmptyColumns]. rewrite H1.
  apply skipEmptyColumns_now. exact H2.
Qed.

(** X3: on rows of four cells with a file name, when some row has an icon
    the table keeps all four columns and every cell, under the full header,
    whatever the fuel. *)
Theorem table_with_icons (fuel : nat) (rows : list (list string)) :
  forallb fourCells rows = true ->
  existsb (fun r => truthy (iconCell r)) rows = true ->
  markdownTable fuel rows
  = Some (join LF (map renderRow (tableHeader :: tableAlign :: rows))).
Proof.
  intros Hall Hicon.
  destruct (lastFalsy_fourCells rows Hall) as [H1 [_ [_ Hlen]]].
  rewrite Hicon in H1. cbn [negb] in H1.
  destruct rows as [|r rows]; [discriminate|].
  destruct (Hlen ltac:(discriminate)) as [H4 _].
  unfold markdownTable. rewrite (skipEmptyColumns_now _ _ H1), H4.
  reflexivity.
Qed.

Lemma table_with_icons_witness :
  markdownTable 0 [["`a.js`"; "1 kB"; "+100 B (+10%)"; icon_caution_growth];
                   ["`b.js`"; "500 B"; "0 B"; ""]]
  = Some (join LF
            ["| Filename | Size | Change |  |";
             "| :--- | :---: | :---: | :---: |";
             "| `a.js` | 1 kB | +100 B (+10%) | " ++ icon_caution_growth ++ " |";
             "| `b.js` | 500 B | 0 B |  |"]).
Proof.
  apply (table_with_icons 0); reflexivity.
Defined.

(** X4: when no row has an icon but some row has a change text and not all
    change texts are [0 B], the icon column is dropped from the header, the
    alignment row and every row, and three columns remain. *)
Theorem table_without_icons (fuel : nat) (rows : list (list string)) :
  forallb fourCells rows = true ->
  existsb (fun r => truthy (iconCell r)) rows = false ->
  existsb (fun r => truthy (changeCell r)) rows = true ->
  forallb changeIsZero rows = false ->
  markdownTable (S fuel) rows
  = Some (join LF (map renderRow
                     (["Filename"; "Size"; "Change"]
                        :: [":---"; ":---:"; ":---:"]
                        :: map pop rows))).
Proof.
  intros Hall Hicon Hchange Hzero.
  destruct (lastFalsy_fourCells rows Hall) as [H1 [H2 [H3 Hlen]]].
  rewrite Hicon in H1. rewrite Hchange in H2. cbn [negb] in H1, H2.
  destruct rows as [|r rows]; [discriminate|].
  destruct (Hlen ltac:(discriminate)) as [_ [Hl3 _]].
  unfold markdownTable. rewrite (skipEmptyColumns_once _ _ H1 H2), Hl3, H3, Hzero.
  reflexivity.
Qed.

Lemma table_without_icons_witness :
  markdownTable 1 [["`a.js`"; "1 kB"; "+1 B (+0%)"; ""];
                   ["`b.js`"; "500 B"; "0 B"; ""]]
  = Some (join LF
            ["| Filename | Size | Change |";
             "| :--- | :---: | :---: |";
             "| `a.js` | 1 kB | +1 B (+0%) |";
             "| `b.js` | 500 B | 0 B |"]).
Proof.
  apply (table_without_icons 0); reflexivity.
Defined.

Lemma markdownTable_two_columns (fuel : nat) (rows : list (list string)) :
  rows <> [] ->
  forallb fourCells rows = true ->
  existsb (fun r => truthy (iconCell r)) rows = false ->
  forallb changeIsZero rows = true ->
  markdownTable (S fuel) rows
  = Some (join LF (map renderRow
                     (["Filename"; "Size"]
                        :: [":---"; ":---:"]
                        :: map (fun r => pop (pop r)) rows))).
Proof.
  intros Hne Hall Hicon Hzero.
  destruct (lastFalsy_fourCells rows Hall) as [H1 [H2 [H3 Hlen]]].
  rewrite Hicon in H1. cbn [negb] in H1.
  assert (Hchange : existsb (fun r => truthy (changeCell r)) rows = true).
  { destruct rows as [|r rows]; [congruence|].
    cbn [forallb existsb] in *. apply andb_prop in Hzero, Hall.
    destruct Hall as [Hr _], Hzero as [Hz _].
    destruct (fourCells_inv _ Hr) as [a [b [c [d [-> _]]]]].
    unfold changeIsZero in Hz. cbn in Hz. apply String.eqb_eq in Hz. subst c.
    reflexivity. }
  rewrite Hchange in H2. cbn [negb] in H2.
  destruct (Hlen Hne) as [_ [Hl3 Hl2]].
  unfold markdownTable.
  destruct rows as [|r rows]; [congruence|].
  rewrite (skipEmptyColumns_once _ _ H1 H2), Hl3, H3, Hzero.
  cbn [Nat.eqb andb Nat.sub]. rewrite map_map. reflexivity.
Qed.

(** X5: when no row has an icon and every change text is [0 B], the change
    column goes as well: two columns remain, file name and size. *)
Theorem table_without_changes (fuel : nat) (rows : list (list string)) :
  rows <> [] ->
  forallb fourCells rows = true ->
  existsb (fun r => truthy (iconCell r)) rows = false ->
  forallb changeIsZero rows = true ->
  markdownTable (S fuel) rows
  = Some (join LF (map renderRow
                     (["Filename"; "Size"]
                        :: [":---"; ":---:"]
                        :: map (fun r => pop (pop r)) rows))).
Proof.
  apply markdownTable_two_columns.
Qed.

Lemma table_without_changes_witness :
  markdownTable 1 [["`a.js`"; "1 kB"; "0 B"; ""];
                   ["`b.js`"; "500 B"; "0 B"; ""]]
  = Some (join LF
            ["| Filename | Size |";
             "| :--- | :---: |";
             "| `a.js` | 1 kB |";
             "| `b.js` | 500 B |"]).
Proof.
  apply (table_without_changes 0); [discriminate | reflexivity ..].
Defined.

Lemma pop_firstn (columns : list string) :
  pop columns = firstn (List.length columns - 1) columns.
Proof.
  unfold pop. rewrite removelast_firstn_len. f_equal. lia.
Qed.

(** X6: when the column-dropping loop stops, every row has lost the same
    number of trailing cells, and every cell it lost was empty: the loop
    never removes a cell with text in it. *)
Theorem skipEmptyColumns_drops_only_empty_cells (fuel : nat) :
  forall rows rows' : list (list string),
    skipEmptyColumns fuel rows = Some rows' ->
    exists k,
      rows' = map (fun r => firstn (List.length r - k) r) rows
      /\ forall r cell,
          In r rows -> In cell (skipn (List.length r - k) r) -> cell = "".
Proof.
  induction fuel as [|fuel IH]; intros rows rows'; cbn [skipEmptyColumns];
    destruct (forallb lastFalsy rows) eqn:Hall; try discriminate;
    try (intros [= <-]; exists 0%nat; split;
         [ rewrite <- (map_id rows) at 1; apply map_ext; intros r;
           rewrite Nat.sub_0_r, firstn_all; reflexivity
         | intros r cell _; rewrite Nat.sub_0_r, skipn_all; contradiction ]).
  intros Hrec. destruct (IH _ _ Hrec) as [k [Hrows' Hdropped]].
  exists (S k). split.
  - rewrite Hrows', map_map. apply map_ext. intros r.
    rewrite (pop_firstn r), firstn_firstn, length_firstn. f_equal. lia.
  - intros r cell Hr Hcell.
    destruct r as [|a l]; [destruct (List.length [] - S k)%nat; contradiction|].
    set (r := a :: l) in *.
    assert (Hne : r <> []) by discriminate.
    rewrite forallb_forall in Hall. pose proof (Hall _ Hr) as Hlast.
    pose proof (app_removelast_last "" Hne) as Happ.
    assert (Hlen : List.length r = S (List.length (pop r))).
    { rewrite Happ at 1. rewrite length_app. unfold pop. cbn. lia. }
    rewrite Happ in Hcell at 2. rewrite skipn_app in Hcell.
    apply in_app_or in Hcell. destruct Hcell as [Hin | Hin].
    + apply (Hdropped (pop r)); [apply in_map; exact Hr|].
      fold (pop r) in Hin.
      replace (List.length (pop r) - k)%nat with (List.length r - S k)%nat by lia.
      exact Hin.
    + unfold pop in Hlen.
      replace (List.length r - S k - List.length (removelast r))%nat
        with 0%nat in Hin by lia.
      destruct Hin as [<- | []].
      unfold lastFalsy in Hlast. subst r.
      destruct (last (a :: l) ""); [reflexivity | discriminate].
Qed.

Lemma skipEmptyColumns_drops_only_empty_cells_witness :
  exists k,
    [["a"]; ["b"; "c"]]
    = map (fun r => firstn (List.length r - k) r) [["a"; ""; ""]; ["b"; "c"; ""; ""]]
    /\ forall r cell,
        In r [["a"; ""; ""]; ["b"; "c"; ""; ""]] ->
        In cell (skipn (List.length r - k) r) -> cell = "".
Proof.
  exact (skipEmptyColumns_drops_only_empty_cells 5
           [["a"; ""; ""]; ["b"; "c"; ""; ""]] [["a"]; ["b"; "c"]] eq_refl).
Defined.

Lemma markdownTable_returns_iff_witness :
  (exists fuel out, markdownTable fuel [[""; "x"; ""]] = Some out)
  <-> (exists columns cell,
          In columns [[""; "x"; ""]] /\ In cell columns /\ truthy cell = true).
Proof.
  exact (markdownTable_returns_iff [[""; "x"; ""]] ltac:(discriminate)).
Defined.

(** ** Groups of the report *)

Lemma filter_everything {A : Type} (f : A -> bool) (l : list A) :
  (forall x, f x = true) -> filter f l = l.
Proof.
  intros Hf. induction l as [|x l IH]; [reflexivity|].
  cbn [filter]. rewrite Hf, IH. reflexivity.
Qed.

(** X8: with neither [collapseUnchanged] nor [omitUnchanged] the threshold
    plays no part: every file has its row in the main table, in the order
    of the files, nothing follows the table, and two thresholds give the
    same report. *)
Theorem report_without_flags `{Formatter}
        (fuel : nat) (files : list Diff) (total : bool) (threshold threshold' : Z) :
  let o t := {| showTotal := total; collapseUnchanged := false;
                omitUnchanged := false; minimumChangeThreshold := t |} in
  changedRows (tally (o threshold) files) = map columnsOf files
  /\ unChangedRows (tally (o threshold) files) = []
  /\ (exists main,
         markdownTable (3 + fuel) (map columnsOf files) = Some main
         /\ diffTable (3 + fuel) files (o threshold)
            = Some ((if total then totalLines (sumSize files) (sumDelta files)
                     else "") ++ main))
  /\ diffTable (3 + fuel) files (o threshold)
     = diffTable (3 + fuel) files (o threshold').
Proof.
  intros o.
  assert (Hc : forall t, filter (shownAsChanged (o t)) files = files).
  { intros t. apply filter_everything. intros file.
    unfold shownAsChanged. cbn. rewrite !andb_false_r. reflexivity. }
  assert (Hu : forall t, filter (shownAsUnchanged (o t)) files = []).
  { intros t. apply filter_nothing. intros file.
    unfold shownAsUnchanged. cbn. rewrite !andb_false_r. reflexivity. }
  rewrite tally_groups. cbn [changedRows unChangedRows]. rewrite Hc, Hu.
  split; [reflexivity|]. split; [reflexivity|].
  destruct (diffTable_shape (o threshold) fuel files) as [main [tail [Hm [Ht Hout]]]].
  destruct (diffTable_shape (o threshold') fuel files) as [main' [tail' [Hm' [Ht' Hout']]]].
  rewrite Hc in Hm, Hm'. rewrite Hu in Ht, Ht'. subst tail tail'.
  rewrite Hm in Hm'. injection Hm' as <-.
  split.
  - exists main. split; [exact Hm|]. rewrite Hout, append_empty_r. reflexivity.
  - rewrite Hout, Hout'. reflexivity.
Qed.

(** X9: a threshold of zero or less marks no file as unchanged, so the
    collapse and omit flags change nothing in the report. *)
Theorem flags_idle_without_threshold `{Formatter}
        (fuel : nat) (files : list Diff) (total collapse omit : bool) (threshold : Z) :
  threshold <= 0 ->
  diffTable fuel files
    {| showTotal := total; collapseUnchanged := collapse;
       omitUnchanged := omit; minimumChangeThreshold := threshold |}
  = diffTable fuel files
      {| showTotal := total; collapseUnchanged := false;
         omitUnchanged := false; minimumChangeThreshold := threshold |}.
Proof.
  intros Ht. unfold diffTable. rewrite !tally_groups.
  cbn [changedRows unChangedRows totalSize totalDelta showTotal].
  assert (Hnone : forall file : Diff, (Z.abs (delta file) <? threshold) = false).
  { intros file. apply Z.ltb_ge. lia. }
  rewrite (filter_ext (shownAsChanged _) (fun _ => true)),
    (filter_ext (shownAsUnchanged _) (fun _ => false)),
    (filter_ext (shownAsChanged {| showTotal := total; collapseUnchanged := false;
                                   omitUnchanged := false;
                                   minimumChangeThreshold := threshold |})
                (fun _ => true)),
    (filter_ext (shownAsUnchanged {| showTotal := total; collapseUnchanged := false;
                                     omitUnchanged := false;
                                     minimumChangeThreshold := threshold |})
                (fun _ => false));
    try reflexivity;
    intros file; unfold shownAsChanged, shownAsUnchanged, isUnchanged; cbn;
    rewrite ?Hnone; reflexivity.
Qed.

Lemma flags_idle_without_threshold_witness :
  @diffTable plainBytes 3
    [{| filename := "a.js"; size := 100; delta := 0 |}]
    {| showTotal := true; collapseUnchanged := true;
       omitUnchanged := true; minimumChangeThreshold := 0 |}
  = @diffTable plainBytes 3
      [{| filename := "a.js"; size := 100; delta := 0 |}]
      {| showTotal := true; collapseUnchanged := false;
         omitUnchanged := false; minimumChangeThreshold := 0 |}.
Proof.
  apply (@flags_idle_without_threshold plainBytes). discriminate.
Defined.

Lemma filter_split_permutation {A : Type} (f g : A -> bool) (l : list A) :
  (forall x, g x = negb (f x)) ->
  Permutation (filter f l ++ filter g l) l.
Proof.
  intros Hg. induction l as [|x l IH]; [constructor|].
  cbn [filter]. rewrite Hg. destruct (f x); cbn [negb app].
  - constructor. exact IH.
  - symmetry. apply Permutation_cons_app. symmetry. exact IH.
Qed.

(** X10: unless [omitUnchanged] is set no file is lost: the rows of the two
    groups together are the rows of the files, each file once. *)
Theorem every_file_has_a_row `{Formatter}
        (files : list Diff) (total collapse : bool) (threshold : Z) :
  let t := tally {| showTotal := total; collapseUnchanged := collapse;
                    omitUnchanged := false; minimumChangeThreshold := threshold |}
                 files in
  Permutation (changedRows t ++ unChangedRows t) (map columnsOf files).
Proof.
  intros t. subst t. rewrite tally_groups. cbn [changedRows unChangedRows].
  rewrite <- map_app. apply Permutation_map.
  apply filter_split_permutation. intros file.
  unfold shownAsChanged, shownAsUnchanged. cbn.
  destruct (isUnchanged _ file), collapse; reflexivity.
Qed.

(** ** Cleaning the sizes read from disk *)

Lemma lookup_assign_same (obj : Snapshot) (key : string) (v : Z) :
  lookup key (assign obj key v) = Some v.
Proof.
  induction obj as [|[k w] obj IH]; cbn.
  - rewrite String.eqb_refl. reflexivity.
  - destruct (String.eqb k key) eqn:Hk; cbn; rewrite Hk; [reflexivity | exact IH].
Qed.

Lemma lookup_assign_other (obj : Snapshot) (key key' : string) (v : Z) :
  key' <> key -> lookup key' (assign obj key v) = lookup key' obj.
Proof.
  intros Hne. induction obj as [|[k w] obj IH]; cbn.
  - destruct (String.eqb_spec key key'); [congruence | reflexivity].
  - destruct (String.eqb_spec k key) as [->|Hk]; cbn.
    + destruct (String.eqb_spec key key'); [congruence | reflexivity].
    + rewrite IH. reflexivity.
Qed.

Lemma keys_assign (obj : Snapshot) (key : string) (v : Z) :
  keys (assign obj key v)
  = if existsb (String.eqb key) (keys obj) then keys obj
    else (keys obj ++ [key])%list.
Proof.
  induction obj as [|[k w] obj IH]; cbn; [reflexivity|].
  rewrite (String.eqb_sym key k).
  destruct (String.eqb k key) eqn:Hk; cbn; [reflexivity|].
  fold (keys (assign obj key v)). rewrite IH. fold (keys obj).
  destruct (existsb (String.eqb key) (keys obj)); reflexivity.
Qed.

Lemma assign_keeps_keys_distinct (obj : Snapshot) (key : string) (v : Z) :
  NoDup (keys obj) -> NoDup (keys (assign obj key v)).
Proof.
  intros Hnd. rewrite keys_assign.
  destruct (existsb (String.eqb key) (keys obj)) eqn:Hex; [exact Hnd|].
  apply NoDup_app; [exact Hnd | repeat constructor; intros [] |].
  intros k Hin [<- | []].
  assert (existsb (String.eqb key) (keys obj) = true); [|congruence].
  apply existsb_exists. exists key. split; [exact Hin | apply String.eqb_refl].
Qed.

Lemma cleanSizes_fold (sizes : Snapshot) :
  cleanSizes sizes = fold_left cleanStep (filter kept sizes) [].
Proof.
  unfold cleanSizes.
  rewrite (filter_ext (fun '(name, _) => negb (includes excludePattern name)) kept)
    by (intros [name bytes]; reflexivity).
  generalize (@nil (string * Z)).
  induction (filter kept sizes) as [|[name bytes] l IH]; intros acc; [reflexivity|].
  cbn [fold_left]. apply IH.
Qed.

Lemma lookup_app {A : Type} (key : string) (a b : list (string * A)) :
  lookup key (a ++ b)
  = match lookup key a with
    | Some v => Some v
    | None => lookup key b
    end.
Proof.
  induction a as [|[k v] a IH]; cbn; [reflexivity|].
  destruct (String.eqb k key); [reflexivity | exact IH].
Qed.

Lemma lookup_fold_cleanStep (key : string) (l : list (string * Z)) :
  forall acc : Snapshot,
    lookup key (fold_left cleanStep l acc)
    = match lookup key (rev (map trimmed l)) with
      | Some v => Some v
      | None => lookup key acc
      end.
Proof.
  induction l as [|entry l IH]; intros acc; [reflexivity|].
  cbn [fold_left map rev]. rewrite IH, lookup_app.
  destruct (lookup key (rev (map trimmed l))); [reflexivity|].
  unfold cleanStep. destruct (trimmed entry) as [k v]. cbn [fst snd lookup].
  destruct (String.eqb_spec k key) as [->|Hne].
  - apply lookup_assign_same.
  - apply lookup_assign_other. congruence.
Qed.

(** X11: the keys of the cleaned sizes are pairwise distinct, also when two
    paths of the build come to the same name once the build prefix is cut. *)
Theorem cleanSizes_keys_distinct (sizes : Snapshot) :
  NoDup (keys (cleanSizes sizes)).
Proof.
  rewrite cleanSizes_fold.
  assert (H : forall l acc, NoDup (keys acc) -> NoDup (keys (fold_left cleanStep l acc))).
  { induction l as [|entry l IH]; intros acc Hacc; [exact Hacc|].
    cbn [fold_left]. apply IH. apply assign_keeps_keys_distinct. exact Hacc. }
  apply H. constructor.
Qed.

(** X12: the cleaned sizes give a name the size of the last path, among the
    paths of the build that do not match the exclude pattern, that comes to
    this name once the first [/build/output] in it is cut; a path that
    matches the exclude pattern contributes nothing. *)
Theorem cleanSizes_lookup (sizes : Snapshot) (key : string) :
  lookup key (cleanSizes sizes)
  = lookup key (rev (map trimmed (filter kept sizes))).
Proof.
  rewrite cleanSizes_fold, lookup_fold_cleanStep.
  destruct (lookup key (rev (map trimmed (filter kept sizes)))); reflexivity.
Qed.

Lemma replaceFirst_absent (s p r : string) :
  includes p s = false -> replaceFirst s p r = s.
Proof.
  induction s as [|c s IH]; cbn [includes replaceFirst].
  - destruct (prefix p ""); [discriminate | reflexivity].
  - destruct (prefix p (String c s)); [discriminate|].
    intros H. rewrite (IH H). reflexivity.
Qed.

Lemma fold_cleanStep_fresh (l : list (string * Z)) :
  forall acc : Snapshot,
    NoDup (keys acc ++ keys l) ->
    (forall entry, In entry l -> trimmed entry = entry) ->
    fold_left cleanStep l acc = (acc ++ l)%list.
Proof.
  induction l as [|[k v] l IH]; intros acc Hnd Hid.
  - cbn. rewrite app_nil_r. reflexivity.
  - cbn [fold_left]. unfold cleanStep at 2.
    rewrite (Hid (k, v) (or_introl eq_refl)). cbn [fst snd].
    assert (Hfresh : assign acc k v = (acc ++ [(k, v)])%list).
    { assert (Hk : ~ In k (keys acc)).
      { intros Hin. cbn [keys map] in Hnd. apply NoDup_remove_2 in Hnd.
        apply Hnd. apply in_or_app. left. exact Hin. }
      clear - Hk. induction acc as [|[k' w] acc IHa]; [reflexivity|].
      cbn. destruct (String.eqb_spec k' k) as [->|_].
      - exfalso. apply Hk. left. reflexivity.
      - rewrite IHa; [reflexivity|]. intros Hin. apply Hk. right. exact Hin. }
    rewrite Hfresh, IH.
    + rewrite <- app_assoc. reflexivity.
    + unfold keys in *. rewrite map_app, <- app_assoc. exact Hnd.
    + intros entry Hin. apply Hid. right. exact Hin.
Qed.

(** X13: sizes whose paths are pairwise distinct and contain neither the
    exclude pattern nor [/build/output] come out of [cleanSizes] as they
    went in, in the same order. *)
Theorem cleanSizes_identity (sizes : Snapshot) :
  NoDup (keys sizes) ->
  (forall name, In name (keys sizes) ->
                includes excludePattern name = false
                /\ includes trimPathPattern name = false) ->
  cleanSizes sizes = sizes.
Proof.
  intros Hnd Hclean. rewrite cleanSizes_fold.
  rewrite forallb_filter_id.
  - apply (fold_cleanStep_fresh sizes []); [exact Hnd|].
    intros [name bytes] Hin. unfold trimmed. cbn [fst snd].
    rewrite replaceFirst_absent; [reflexivity|].
    apply Hclean. apply (in_map fst) in Hin. exact Hin.
  - apply forallb_forall. intros [name bytes] Hin. unfold kept. cbn [fst].
    apply (in_map fst) in Hin. cbn [fst] in Hin.
    rewrite (proj1 (Hclean _ Hin)). reflexivity.
Qed.

Lemma cleanSizes_identity_witness :
  cleanSizes [("/dist/app.js", 100); ("/dist/app.css", 20)]
  = [("/dist/app.js", 100); ("/dist/app.css", 20)].
Proof.
  apply cleanSizes_identity.
  - repeat constructor; cbn; intuition discriminate.
  - intros name [<- | [<- | []]]; split; reflexivity.
Defined.

(** ** The pattern of the command line tool *)

Lemma take_append (a b : string) : take (String.length a) (a ++ b) = a.
Proof.
  induction a as [|c a IH]; cbn; [destruct b; reflexivity | rewrite IH; reflexivity].
Qed.

Lemma drop_append (a b : string) (n : nat) :
  drop (String.length a + n) (a ++ b) = drop n b.
Proof.
  induction a as [|c a IH]; cbn; [reflexivity | exact IH].
Qed.

Lemma take_drop (n : nat) (s : string) : take n s ++ drop n s = s.
Proof.
  revert s. induction n as [|n IH]; intros s; [reflexivity|].
  destruct s as [|c s]; [reflexivity|]. cbn. rewrite IH. reflexivity.
Qed.

Lemma take_length (n : nat) (s : string) :
  String.length (take n s) = Nat.min n (String.length s).
Proof.
  revert s. induction n as [|n IH]; intros s; [reflexivity|].
  destruct s as [|c s]; [reflexivity|]. cbn. rewrite IH. reflexivity.
Qed.

Lemma prefix_append (a b : string) : prefix a (a ++ b) = true.
Proof.
  induction a as [|c a IH]; cbn; [destruct b; reflexivity|].
  destruct (ascii_dec c c); [exact IH | congruence].
Qed.

Lemma hashedJsHere_length (s hash : string) :
  hashedJsHere s = Some hash -> String.length s = 12%nat.
Proof.
  unfold hashedJsHere. destruct s as [|c rest]; [discriminate|].
  destruct (Ascii.eqb_spec c "."%char) as [->|Hc].
  - destruct ((String.length (take 8 rest) =? 8)%nat && allWordChars (take 8 rest)
              && String.eqb (drop 8 rest) ".js") eqn:Hcond; [|discriminate].
    intros _. apply andb_prop in Hcond. destruct Hcond as [Hcond Hjs].
    apply andb_prop in Hcond. destruct Hcond as [Hlen _].
    apply Nat.eqb_eq in Hlen. apply String.eqb_eq in Hjs.
    rewrite <- (take_drop 8 rest). cbn [String.length].
    rewrite length_append, Hlen, Hjs. reflexivity.
  - destruct c as [[] [] [] [] [] [] [] []]; try discriminate.
    exfalso. apply Hc. reflexivity.
Qed.

Lemma hashedJsHere_hit (hash : string) :
  String.length hash = 8%nat -> allWordChars hash = true ->
  hashedJsHere ("." ++ hash ++ ".js") = Some hash.
Proof.
  intros Hlen Hword.
  assert (Htake : take 8 (hash ++ ".js") = hash)
    by (rewrite <- Hlen; apply take_append).
  assert (Hdrop : drop 8 (hash ++ ".js") = ".js")
    by (rewrite <- Hlen, <- (Nat.add_0_r (String.length hash)); apply drop_append).
  cbn [append hashedJsHere]. rewrite Htake, Hdrop, Hlen, Hword. reflexivity.
Qed.

Lemma hashedJsFrom_suffix (p hash : string) (pos : nat) :
  String.length hash = 8%nat -> allWordChars hash = true ->
  hashedJsFrom pos (p ++ "." ++ hash ++ ".js")
  = Some {| matched := "." ++ hash ++ ".js"; captures := [Some hash];
            offset := (pos + String.length p)%nat; namedGroups := false |}.
Proof.
  intros Hlen Hword.
  pose proof (hashedJsHere_hit _ Hlen Hword) as Hhit.
  assert (Htl : String.length ("." ++ hash ++ ".js") = 12%nat).
  { rewrite !length_append, Hlen. reflexivity. }
  set (tl := "." ++ hash ++ ".js") in *.
  revert pos. induction p as [|c p IH]; intros pos.
  - cbn [append String.length]. rewrite Nat.add_0_r.
    destruct tl as [|t0 tl']; [discriminate|].
    cbn [hashedJsFrom]. rewrite Hhit. reflexivity.
  - change (String c p ++ tl) with (String c (p ++ tl)).
    cbn [hashedJsFrom String.length].
    destruct (hashedJsHere (String c (p ++ tl))) as [h|] eqn:Hhere.
    + exfalso. apply hashedJsHere_length in Hhere.
      cbn [String.length] in Hhere. rewrite length_append, Htl in Hhere. lia.
    + rewrite IH.
      replace (S pos + String.length p)%nat with (pos + S (String.length p))%nat
        by lia.
      reflexivity.
Qed.

Lemma wordChars_noLineTerminator (s : string) :
  allWordChars s = true -> noLineTerminator s = true.
Proof.
  induction s as [|c s IH]; [reflexivity|].
  cbn [allWordChars noLineTerminator]. intros H. apply andb_prop in H.
  destruct H as [Hc Hs]. rewrite (IH Hs), andb_true_r.
  destruct c as [[] [] [] [] [] [] [] []]; try reflexivity; discriminate.
Qed.

Lemma drop_append_all (a b : string) : drop (String.length a) (a ++ b) = b.
Proof.
  pose proof (drop_append a b 0) as H. rewrite Nat.add_0_r in H. exact H.
Qed.

Lemma replaceFirst_after_dot (hash tail rep : string) :
  hash <> "" -> allWordChars hash = true ->
  replaceFirst ("." ++ hash ++ tail) hash rep = "." ++ rep ++ tail.
Proof.
  intros Hne Hword.
  assert (Hdot : prefix hash (String "." (hash ++ tail)) = false).
  { destruct hash as [|h0 hash']; [congruence|].
    cbn [allWordChars] in Hword. apply andb_prop in Hword. destruct Hword as [H0 _].
    cbn [prefix]. destruct (ascii_dec h0 "."%char) as [->|_]; [discriminate | reflexivity]. }
  change ("." ++ hash ++ tail) with (String "." (hash ++ tail)).
  cbn [replaceFirst]. rewrite Hdot.
  change ("." ++ rep ++ tail) with (String "." (rep ++ tail)). f_equal.
  destruct (hash ++ tail) as [|c rest] eqn:Hcat.
  - destruct hash; [congruence | discriminate].
  - cbn [replaceFirst]. rewrite <- Hcat, prefix_append, drop_append_all. reflexivity.
Qed.

Lemma drop_all (s : string) : drop (String.length s) s = "".
Proof.
  induction s as [|c s IH]; [reflexivity | exact IH].
Qed.

(** X14: with the pattern of the command line tool, a file name that ends
    in a dot, eight word characters and [.js] comes out with these eight
    characters masked and the rest untouched; so two builds of a file that
    differ only in the hash get the same name. *)
Theorem hashed_names_normalize_alike `{RegExpEngine} (stem hash : string) :
  RegExp_new hashedJsSource = Ok hashedJs ->
  String.length hash = 8%nat -> allWordChars hash = true ->
  exists normalize,
    stripHash (Some hashedJsSource) = Some normalize
    /\ normalize (stem ++ "." ++ hash ++ ".js") = Ok (stem ++ ".********.js").
Proof.
  intros Hre Hlen Hword. unfold stripHash.
  change (truthy hashedJsSource) with true. cbv iota.
  eexists. split; [reflexivity|].
  rewrite Hre. cbn [bind]. unfold String_replace.
  change (exec hashedJs) with (hashedJsFrom 0).
  rewrite (hashedJsFrom_suffix stem hash 0 Hlen Hword).
  rewrite replacer_masks by reflexivity.
  cbn [bind matched captures offset participating Nat.add].
  unfold maskCaptures. cbn [fold_left].
  rewrite replaceFirst_after_dot;
    [| destruct hash; [discriminate | discriminate] | exact Hword].
  rewrite (maskAll_stars hash (wordChars_noLineTerminator _ Hword)), Hlen.
  rewrite take_append.
  assert (Htl : String.length ("." ++ hash ++ ".js") = 12%nat).
  { rewrite !length_append, Hlen. reflexivity. }
  rewrite Htl, drop_append. rewrite <- Htl, drop_all, append_empty_r.
  reflexivity.
Qed.

Lemma hashed_names_normalize_alike_witness :
  exists normalize,
    @stripHash (fun _ => Ok hashedJs) (Some hashedJsSource) = Some normalize
    /\ normalize ("/build/main" ++ "." ++ "0f3a9c1e" ++ ".js")
       = Ok ("/build/main" ++ ".********.js").
Proof.
  exact (@hashed_names_normalize_alike (fun _ => Ok hashedJs)
           "/build/main" "0f3a9c1e" eq_refl eq_refl eq_refl).
Defined.

(** ** Named groups and lengths *)

Lemma dropLast2_three_more {A : Type} (l : list A) (a b c : A) :
  dropLast2 (l ++ [a; b; c]) = (l ++ [a])%list.
Proof.
  change (l ++ [a; b; c])%list with (l ++ [a] ++ [b; c])%list.
  rewrite app_assoc. apply dropLast2_two_more.
Qed.

Lemma maskEach_after_strings (hashes : list string) (rest : list value) :
  forall str,
    maskEach str (map VString hashes ++ rest)
    = maskEach (maskCaptures str hashes) rest.
Proof.
  unfold maskCaptures.
  induction hashes as [|hash hashes IH]; intros str; [reflexivity|].
  cbn [map app maskEach maskOne orEmpty bind fold_left]. apply IH.
Qed.

(** X15: a pattern with named groups makes the normalizer throw a
    TypeError on every file name it matches anywhere but at the very start:
    the replacer then gets one more argument, the match offset survives the
    [slice], and a non-zero number has no [replace] method. *)
Theorem stripHash_throws_with_named_groups `{RegExpEngine}
        (source : string) (re : RegExp) (fileName : string) (m : Match) :
  truthy source = true ->
  RegExp_new source = Ok re ->
  exec re fileName = Some m ->
  namedGroups m = true ->
  offset m <> 0%nat ->
  exists normalize,
    stripHash (Some source) = Some normalize
    /\ normalize fileName = Throw (TypeError "hash.replace is not a function").
Proof.
  intros Hsource Hre Hm Hnamed Hoff. unfold stripHash. rewrite Hsource.
  eexists. split; [reflexivity|].
  rewrite Hre. cbn [bind]. unfold String_replace. rewrite Hm.
  unfold replacer, replacerArgs. rewrite Hnamed.
  cbn [app]. rewrite dropLast2_three_more, filter_app, filter_notNull_captures.
  cbn [filter notNull].
  assert (Hthrow : forall str,
             maskEach str (map VString (participating (captures m))
                             ++ [VNumber (offset m)])
             = Throw (TypeError "hash.replace is not a function")).
  { intros str. rewrite maskEach_after_strings.
    destruct (offset m) as [|n]; [congruence | reflexivity]. }
  destruct (map VString (participating (captures m)) ++ [VNumber (offset m)])%list
    as [|v l] eqn:Hargs.
  - destruct (map VString (participating (captures m))); discriminate.
  - cbv iota. rewrite Hthrow. reflexivity.
Qed.

Lemma stripHash_throws_with_named_groups_witness :
  exists normalize,
    @stripHash (fun _ => Ok hashedJsNamed) (Some "\.(?<hash>\w{8})\.js$")
    = Some normalize
    /\ normalize "app.a1b2c3d4.js"
       = Throw (TypeError "hash.replace is not a function").
Proof.
  exact (@stripHash_throws_with_named_groups (fun _ => Ok hashedJsNamed)
           "\.(?<hash>\w{8})\.js$" hashedJsNamed "app.a1b2c3d4.js"
           {| matched := ".a1b2c3d4.js"; captures := [Some "a1b2c3d4"];
              offset := 3; namedGroups := true |}
           eq_refl eq_refl eq_refl eq_refl ltac:(discriminate)).
Defined.

(** X16: for a pattern without named groups, when the match is a part of
    the file name and some group took part, the normalized name has the
    length of the file name. *)
Theorem stripHash_keeps_length `{RegExpEngine}
        (source : string) (re : RegExp) (fileName : string) (m : Match) :
  truthy source = true ->
  RegExp_new source = Ok re ->
  exec re fileName = Some m ->
  namedGroups m = false ->
  participating (captures m) <> [] ->
  fileName = take (offset m) fileName ++ matched m
               ++ drop (offset m + String.length (matched m)) fileName ->
  exists normalize out,
    stripHash (Some source) = Some normalize
    /\ normalize fileName = Ok out
    /\ String.length out = String.length fileName.
Proof.
  intros Hsource Hre Hm Hnamed Hpart Hwf. unfold stripHash. rewrite Hsource.
  eexists. eexists. split; [reflexivity|].
  rewrite Hre. cbn [bind]. unfold String_replace. rewrite Hm.
  rewrite (replacer_masks _ _ Hnamed). cbn [bind].
  split; [reflexivity|].
  destruct (participating (captures m)) as [|hash hashes]; [congruence|].
  apply (f_equal String.length) in Hwf. rewrite !length_append in Hwf.
  rewrite !length_append, maskCaptures_length. symmetry. exact Hwf.
Qed.

Lemma stripHash_keeps_length_witness :
  exists normalize out,
    @stripHash (fun _ => Ok hashedJs) (Some hashedJsSource) = Some normalize
    /\ normalize "app.a1b2c3d4.js" = Ok out
    /\ String.length out = String.length "app.a1b2c3d4.js".
Proof.
  exact (@stripHash_keeps_length (fun _ => Ok hashedJs)
           hashedJsSource hashedJs "app.a1b2c3d4.js"
           {| matched := ".a1b2c3d4.js"; captures := [Some "a1b2c3d4"];
              offset := 3; namedGroups := false |}
           eq_refl eq_refl eq_refl eq_refl ltac:(discriminate) eq_refl).
Defined.

(** ** The baseline [compare] reads *)

Lemma diffTable_returns `{Formatter} (fuel : nat) (files : list Diff) (o : Options) :
  exists report, diffTable (3 + fuel) files o = Some report.
Proof.
  destruct (diffTable_shape o fuel files) as [main [tail [_ [_ Hout]]]].
  eexists. exact Hout.
Qed.

Lemma compare_with_baseline `{Formatter} `{JsonParser} `{Differ}
      (fuel : nat) (origSizes : Snapshot) (fetched : Fetched) (threshold : Z)
      (stored baseline : Json) :
  readGist fetched = Ok stored ->
  getProp (Some stored) "bundle" = Ok (Some baseline) ->
  baseline <> JNull ->
  exists report,
    diffTable (3 + fuel) (getDiff baseline (cleanSizes origSizes))
      (compareOptions threshold) = Some report
    /\ compare (3 + fuel) origSizes fetched threshold
       = Some {| console := [ConsoleLog report]; outcome := Ok tt |}.
Proof.
  intros Hread Hbundle Hnull.
  destruct (diffTable_returns fuel (getDiff baseline (cleanSizes origSizes))
              (compareOptions threshold)) as [report Hreport].
  exists report. split; [exact Hreport|].
  unfold compare, getGistContents. rewrite Hread, Hbundle.
  assert (Hb : orEmptyObject (Some baseline) = baseline)
    by (destruct baseline; [congruence | reflexivity ..]).
  rewrite Hb. unfold compareOptions in Hreport. rewrite Hreport. reflexivity.
Qed.

Lemma Json_eq_null (j : Json) : j = JNull \/ j <> JNull.
Proof.
  destruct j; [left; reflexivity | right; discriminate ..].
Qed.

Lemma readGist_of_document `{JsonParser} (jsonFile : Json) :
  jsonFile <> JNull ->
  exists stored,
    (bundle <- getProp (Some jsonFile) "bundle" ;;
     if jsTruthy bundle then Ok jsonFile
     else Ok (JObject [("bundle", jsonFile)])) = Ok stored
    /\ getProp (Some stored) "bundle" = Ok (Some (baselineOf jsonFile))
    /\ baselineOf jsonFile <> JNull.
Proof.
  intros Hnull.
  destruct jsonFile as [| b | x | s | items | fields]; try congruence;
    try (eexists; cbn; split; [reflexivity | split; [reflexivity | discriminate]]).
  cbn [getProp bind baselineOf].
  destruct (lookup "bundle" fields) as [bundle|] eqn:Hl.
  - destruct (jsTruthy (Some bundle)) eqn:Ht.
    + eexists. split; [reflexivity|]. cbn [getProp]. rewrite Hl.
      split; [reflexivity|]. intros ->. discriminate.
    + eexists. split; [reflexivity|]. cbn. split; [reflexivity | discriminate].
  - eexists. cbn. split; [reflexivity|]. split; [reflexivity | discriminate].
Qed.

Lemma compare_with_document `{Formatter} `{JsonParser} `{Differ}
      (fuel : nat) (origSizes : Snapshot) (statusText : string)
      (files : list (string * GistFile)) (file : GistFile) (doc : Json)
      (threshold : Z) :
  lookup GIST_FILE_NAME files = Some file ->
  JSON_parse (content file) = Ok doc ->
  doc <> JNull ->
  exists report,
    diffTable (3 + fuel) (getDiff (baselineOf doc) (cleanSizes origSizes))
      (compareOptions threshold) = Some report
    /\ compare (3 + fuel) origSizes (Response true statusText (Ok files)) threshold
       = Some {| console := [ConsoleLog report]; outcome := Ok tt |}.
Proof.
  intros Hfile Hparse Hnull.
  destruct (readGist_of_document doc Hnull) as [stored [Hs [Hb Hn]]].
  apply (compare_with_baseline fuel origSizes _ threshold stored); [|exact Hb|exact Hn].
  unfold readGist. cbn [negb bind]. rewrite Hfile, Hparse. cbn [bind]. exact Hs.
Qed.

(** X18: the baseline [compare] diffs against is read off the stored
    document: its [bundle] when the document is an object with a truthy
    [bundle], and the document itself otherwise, which is how a snapshot
    stored in the older format is still understood.  A snapshot in the older
    format that lists a file called [bundle] with a non-zero size is taken
    for the newer format. *)
Theorem compare_baseline_of_document `{Formatter} `{JsonParser} `{Differ}
        (fuel : nat) (origSizes : Snapshot) (statusText : string)
        (files : list (string * GistFile)) (file : GistFile) (doc : Json)
        (threshold : Z) :
  lookup GIST_FILE_NAME files = Some file ->
  JSON_parse (content file) = Ok doc ->
  doc <> JNull ->
  exists report,
    diffTable (3 + fuel) (getDiff (baselineOf doc) (cleanSizes origSizes))
      (compareOptions threshold) = Some report
    /\ compare (3 + fuel) origSizes (Response true statusText (Ok files)) threshold
       = Some {| console := [ConsoleLog report]; outcome := Ok tt |}.
Proof.
  intros Hfile Hparse Hnull.
  destruct (compare_with_document fuel origSizes statusText files file doc threshold
              Hfile Hparse Hnull) as [report [Hreport Hcompare]].
  exists report. split; assumption.
Qed.

Lemma compare_baseline_of_document_witness :
  baselineOf legacyDoc = JNumber (Z2F 123)
  /\ exists report,
      @diffTable plainBytes 3 (@getDiff noDiff (baselineOf legacyDoc) (cleanSizes []))
        (compareOptions 10) = Some report
      /\ @compare plainBytes (parserOf legacyText legacyDoc) noDiff 3 []
           (Response true "OK" (Ok [(GIST_FILE_NAME, {| content := legacyText |})]))
           10
         = Some {| console := [ConsoleLog report]; outcome := Ok tt |}.
Proof.
  split; [reflexivity|].
  exact (@compare_baseline_of_document plainBytes
           (parserOf legacyText legacyDoc) noDiff 0 [] "OK"
           [(GIST_FILE_NAME, {| content := legacyText |})]
           {| content := legacyText |} legacyDoc
           10 eq_refl eq_refl ltac:(discriminate)).
Defined.

(** ** node_modules statistics *)

(** X19: without stored statistics, and with stored statistics equal to
    the current ones, [devStatsDiff] prints the module count and the total
    size and no change. *)
Theorem devStatsDiff_without_change `{Formatter} (curr : Stats.t) :
  let plain :=
    LF ++ "## node_modules stats" ++ LF ++ LF
       ++ "**Module count:** " ++ intToString (Stats.count curr) ++ " " ++ LF ++ LF
       ++ "**Total Size:** " ++ prettyBytes (Stats.size curr) ++ " " ++ LF ++ "  " in
  devStatsDiff curr None = plain
  /\ devStatsDiff curr (Some curr) = plain.
Proof.
  cbv zeta. unfold devStatsDiff, statDiff.
  cbn [option_map]. rewrite !Z.sub_diag. cbn [Z.eqb].
  split; reflexivity.
Qed.

Lemma intToString_negative (z : Z) :
  z < 0 -> exists rest, intToString z = "-" ++ rest.
Proof.
  intros Hz. destruct z as [|p|p]; try lia.
  unfold intToString, Number_toString. cbv zeta.
  change (Z.neg p <? 0) with true. cbv iota.
  destruct (_ <=? 21)%nat; [eexists; reflexivity|].
  destruct (stripZeros _) as [|c1 [|c2 rest]]; eexists; reflexivity.
Qed.

(** X20: when the stored module count is larger than the current one (and
    the sizes are equal) the change of the count is printed with two minus
    signs: the sign the code writes, followed by the negative difference. *)
Theorem devStatsDiff_shrinking_count `{Formatter} (curr prev : Stats.t) :
  Stats.count curr < Stats.count prev ->
  Stats.size curr = Stats.size prev ->
  exists digits,
    intToString (Stats.count curr - Stats.count prev) = "-" ++ digits
    /\ devStatsDiff curr (Some prev)
       = LF ++ "## node_modules stats" ++ LF ++ LF
            ++ "**Module count:** " ++ intToString (Stats.count curr) ++ " "
            ++ ("(**-" ++ ("-" ++ digits) ++ "** change) "
                  ++ iconForDifference (Stats.count curr - Stats.count prev)
                       (Stats.count prev))
            ++ LF ++ LF
            ++ "**Total Size:** " ++ prettyBytes (Stats.size curr) ++ " " ++ LF ++ "  ".
Proof.
  intros Hc Hs.
  destruct (intToString_negative (Stats.count curr - Stats.count prev) ltac:(lia))
    as [digits Hd].
  exists digits. split; [exact Hd|].
  unfold devStatsDiff, statDiff. cbn [option_map].
  rewrite Hs, Z.sub_diag. cbn [Z.eqb].
  destruct (Z.eqb_spec (Stats.count curr - Stats.count prev) 0); [lia|].
  destruct (Z.ltb_spec 0 (Stats.count curr - Stats.count prev)); [lia|].
  rewrite Hd. reflexivity.
Qed.

Lemma devStatsDiff_shrinking_count_witness :
  @devStatsDiff plainBytes {| Stats.size := 5000; Stats.count := 97 |}
    (Some {| Stats.size := 5000; Stats.count := 100 |})
  = LF ++ "## node_modules stats" ++ LF ++ LF
       ++ "**Module count:** 97 (**--3** change) " ++ LF ++ LF
       ++ "**Total Size:** 5000 B " ++ LF ++ "  ".
Proof.
  destruct (@devStatsDiff_shrinking_count plainBytes
              {| Stats.size := 5000; Stats.count := 97 |}
              {| Stats.size := 5000; Stats.count := 100 |} eq_refl eq_refl)
    as [digits [Hd Hout]].
  rewrite Hout. vm_compute in Hd. injection Hd as <-. reflexivity.
Defined.

(** ** From [update] to [compare] *)

(** X21: what [update] stores is what [compare] later diffs against.  With
    a printer and a parser that agree on the document, [update] sends one
    request for the stats file and ends normally; and when the gist then
    holds the content of that request, [compare] hands the differ the
    cleaned sizes of the build [update] ran on, whether or not the
    statistics were stored with them. *)
Theorem compare_after_update `{Formatter} `{JsonParser} `{JsonPrinter} `{Differ}
        (fuel : nat) (oldSizes newSizes : Snapshot)
        (devStats : bool) (stats : Stats.t) (statusText : string) (threshold : Z) :
  let doc := gistFileOf (cleanSizes oldSizes)
                        (if devStats then Some stats else None) in
  JSON_parse (JSON_stringify doc) = Ok doc ->
  exists request report,
    update oldSizes devStats (Ok stats) None
    = {| sent := Some request; updateConsole := []; updateOutcome := Ok tt |}
    /\ patchFile request = GIST_FILE_NAME
    /\ diffTable (3 + fuel)
         (getDiff (snapshotJson (cleanSizes oldSizes)) (cleanSizes newSizes))
         (compareOptions threshold) = Some report
    /\ compare (3 + fuel) newSizes
         (Response true statusText
            (Ok [(patchFile request, {| content := patchContent request |})]))
         threshold
       = Some {| console := [ConsoleLog report]; outcome := Ok tt |}.
Proof.
  intros doc Hround.
  assert (Hbase : baselineOf doc = snapshotJson (cleanSizes oldSizes)).
  { subst doc. unfold gistFileOf, baselineOf. cbn [lookup String.eqb].
    reflexivity. }
  destruct (compare_with_document fuel newSizes statusText
              [(GIST_FILE_NAME, {| content := JSON_stringify doc |})]
              {| content := JSON_stringify doc |} doc threshold)
    as [report [Hreport Hcompare]].
  - cbn [lookup]. rewrite String.eqb_refl. reflexivity.
  - exact Hround.
  - subst doc. discriminate.
  - rewrite Hbase in Hreport.
    exists {| patchFile := GIST_FILE_NAME; patchContent := JSON_stringify doc |}, report.
    split; [subst doc; unfold update, updateGistContents; destruct devStats; reflexivity|].
    split; [reflexivity|]. split; [exact Hreport | exact Hcompare].
Qed.

Lemma compare_after_update_witness :
  let doc := gistFileOf (cleanSizes [("/build/output/app.js", 100)]) None in
  exists request report,
    @update (printerOf "stored") [("/build/output/app.js", 100)] false
      (Ok {| Stats.size := 0; Stats.count := 0 |}) None
    = {| sent := Some request; updateConsole := []; updateOutcome := Ok tt |}
    /\ patchFile request = GIST_FILE_NAME
    /\ @diffTable plainBytes 3
         (@getDiff noDiff (snapshotJson (cleanSizes [("/build/output/app.js", 100)]))
            (cleanSizes [("/build/output/app.js", 120)]))
         (compareOptions 10) = Some report
    /\ @compare plainBytes (parserOf "stored" doc) noDiff 3
         [("/build/output/app.js", 120)]
         (Response true "OK"
            (Ok [(patchFile request, {| content := patchContent request |})]))
         10
       = Some {| console := [ConsoleLog report]; outcome := Ok tt |}.
Proof.
  exact (@compare_after_update plainBytes
           (parserOf "stored"
              (gistFileOf (cleanSizes [("/build/output/app.js", 100)]) None))
           (printerOf "stored") noDiff 0
           [("/build/output/app.js", 100)] [("/build/output/app.js", 120)]
           false {| Stats.size := 0; Stats.count := 0 |} "OK" 10 eq_refl).
Defined.

(** ** The table of files that did not change *)

(** X22: classifier and renderer together: for files whose delta is zero
    and whose size is not, and a formatter that writes zero as [0 B], the
    table has two columns, the file name between backticks and the formatted
    size. *)
Theorem table_of_unchanged_files `{Formatter} (fuel : nat) (files : list Diff) :
  files <> [] ->
  (forall file, In file files -> delta file = 0 /\ size file <> 0) ->
  prettyBytes 0 = "0 B" ->
  markdownTable (S fuel) (map columnsOf files)
  = Some (join LF (map renderRow
                     (["Filename"; "Size"]
                        :: [":---"; ":---:"]
                        :: map (fun file => ["`" ++ filename file ++ "`";
                                             prettyBytes (size file)])
                             files))).
Proof.
  intros Hne Hall Hzero.
  assert (Hrows : map columnsOf files
                  = map (fun file => ["`" ++ filename file ++ "`";
                                      prettyBytes (size file); "0 B"; ""]) files).
  { apply map_ext_in. intros file Hin. destruct (Hall file Hin) as [Hd Hs].
    rewrite (columnsOf_unchanged file Hd Hs), Hzero. reflexivity. }
  rewrite Hrows, markdownTable_two_columns.
  - rewrite map_map. reflexivity.
  - destruct files; [congruence | discriminate].
  - apply forallb_forall. intros r Hin. apply in_map_iff in Hin.
    destruct Hin as [file [<- _]]. reflexivity.
  - rewrite <- Bool.negb_true_iff, <- forallb_negb_existsb.
    apply forallb_forall. intros r Hin. apply in_map_iff in Hin.
    destruct Hin as [file [<- _]]. reflexivity.
  - apply forallb_forall. intros r Hin. apply in_map_iff in Hin.
    destruct Hin as [file [<- _]]. reflexivity.
Qed.

Lemma table_of_unchanged_files_witness :
  @markdownTable 1
    (map (@columnsOf plainBytes)
       [{| filename := "a.js"; size := 900; delta := 0 |};
        {| filename := "b.js"; size := 500; delta := 0 |}])
  = Some (join LF ["| Filename | Size |"; "| :--- | :---: |";
                   "| `a.js` | 900 B |"; "| `b.js` | 500 B |"]).
Proof.
  apply (@table_of_unchanged_files plainBytes 0).
  - discriminate.
  - intros file [<- | [<- | []]]; (split; [reflexivity | intros Hs; discriminate Hs]).
  - reflexivity.
Defined.

(** ** Exact quotients in binary64 *)

Lemma iter_pos_commute {A : Type} (f : A -> A) (p : positive) :
  forall x, iter_pos f p (f x) = f (iter_pos f p x).
Proof.
  induction p as [p IH | p IH |]; intros x; cbn [iter_pos].
  - rewrite !IH. reflexivity.
  - rewrite !IH. reflexivity.
  - reflexivity.
Qed.

Lemma iter_pos_succ {A : Type} (f : A -> A) (p : positive) :
  forall x, iter_pos f (Pos.succ p) x = f (iter_pos f p x).
Proof.
  induction p as [p IH | p IH |]; intros x; cbn [iter_pos Pos.succ].
  - rewrite !IH, !iter_pos_commute. reflexivity.
  - rewrite !iter_pos_commute. reflexivity.
  - reflexivity.
Qed.

Lemma shr_1_double (M : Z) :
  shr_1 {| shr_m := 2 * M; shr_r := false; shr_s := false |}
  = {| shr_m := M; shr_r := false; shr_s := false |}.
Proof.
  destruct M; reflexivity.
Qed.

Lemma shr_exact (p : positive) :
  forall M : Z,
    iter_pos shr_1 p {| shr_m := M * 2 ^ Z.pos p; shr_r := false; shr_s := false |}
    = {| shr_m := M; shr_r := false; shr_s := false |}.
Proof.
  induction p as [|p IH] using Pos.peano_ind; intros M.
  - cbn [iter_pos]. rewrite Z.pow_1_r, Z.mul_comm. apply shr_1_double.
  - rewrite iter_pos_succ.
    replace (M * 2 ^ Z.pos (Pos.succ p)) with ((2 * M) * 2 ^ Z.pos p).
    + rewrite IH. apply shr_1_double.
    + rewrite Pos2Z.inj_succ, Z.pow_succ_r by lia. lia.
Qed.

Lemma digits2_pos_log2 (m : positive) :
  Z.pos (digits2_pos m) = Z.log2 (Z.pos m) + 1.
Proof.
  rewrite digits2_pos_size. destruct m as [m | m |]; cbn; lia.
Qed.

(** Rounding a mantissa whose spare low bits are zero loses nothing. *)
Lemma binary_round_aux_value (s : bool) (q e N t : Z) :
  q = N * 2 ^ t -> 0 <= t -> 0 < N < 2 ^ 53 ->
  -1021 <= e -> e + t <= 971 ->
  exists mz u,
    binary_round_aux prec emax s q e loc_Exact = S754_finite s mz (e + t - u)
    /\ 0 <= u <= t /\ Z.pos mz = N * 2 ^ u.
Proof.
  intros Hq Ht HN He Het.
  assert (Hqpos : 0 < q) by (subst q; apply Z.mul_pos_pos; [lia | apply Z.pow_pos_nonneg; lia]).
  destruct q as [|qp|qp]; try lia.
  assert (Hdq : Z.pos (digits2_pos qp) = t + Z.log2 N + 1).
  { rewrite digits2_pos_log2, Hq, Z.log2_mul_pow2 by lia. lia. }
  assert (HlN : Z.log2 N < 53) by (apply Z.log2_lt_pow2; lia).
  assert (HlN0 : 0 <= Z.log2 N) by apply Z.log2_nonneg.
  unfold binary_round_aux, shr_fexp, fexp, emin, Zdigits2, prec, emax.
  rewrite Hdq.
  destruct (t + Z.log2 N + 1 - 53) as [|p|p] eqn:Hshift.
  - (* exactly 53 digits *)
    replace (IntDef.Z.max (t + Z.log2 N + 1 + e - 53) (3 - 1024 - 53) - e) with 0 by lia.
    cbn [shr shr_record_of_loc shr_m loc_of_shr_record round_nearest_even].
    rewrite Hdq.
    replace (IntDef.Z.max (t + Z.log2 N + 1 + e - 53) (3 - 1024 - 53) - e) with 0 by lia.
    cbn [shr shr_record_of_loc shr_m].
    destruct (Z.leb_spec e (1024 - 53)); [|lia].
    exists qp, t. replace (e + t - t) with e by lia. repeat split; [lia | lia | exact Hq].
  - (* more than 53 digits: shift right by p *)
    replace (IntDef.Z.max (t + Z.log2 N + 1 + e - 53) (3 - 1024 - 53) - e) with (Z.pos p) by lia.
    cbn [shr shr_record_of_loc].
    assert (Hpt : Z.pos p <= t) by lia.
    replace (Z.pos qp) with ((N * 2 ^ (t - Z.pos p)) * 2 ^ Z.pos p)
      by (rewrite Hq, <- Z.mul_assoc, <- Z.pow_add_r by lia; f_equal; f_equal; lia).
    rewrite shr_exact.
    cbn [shr_m loc_of_shr_record round_nearest_even].
    assert (HM : 0 < N * 2 ^ (t - Z.pos p))
      by (apply Z.mul_pos_pos; [lia | apply Z.pow_pos_nonneg; lia]).
    destruct (N * 2 ^ (t - Z.pos p)) as [|mp|mp] eqn:HMeq; try lia.
    assert (Hdm : Z.pos (digits2_pos mp) = 53).
    { rewrite digits2_pos_log2, <- HMeq, Z.log2_mul_pow2 by lia. lia. }
    rewrite Hdm.
    replace (IntDef.Z.max (53 + (e + Z.pos p) - 53) (3 - 1024 - 53) - (e + Z.pos p))
      with 0 by lia.
    cbn [shr shr_record_of_loc shr_m].
    destruct (Z.leb_spec (e + Z.pos p) (1024 - 53)); [|lia].
    exists mp, (t - Z.pos p).
    replace (e + t - (t - Z.pos p)) with (e + Z.pos p) by lia.
    repeat split; [lia | lia | symmetry; exact HMeq].
  - (* fewer than 53 digits: nothing to shift *)
    replace (IntDef.Z.max (t + Z.log2 N + 1 + e - 53) (3 - 1024 - 53) - e)
      with (Z.neg p) by lia.
    cbn [shr shr_record_of_loc shr_m loc_of_shr_record round_nearest_even].
    rewrite Hdq.
    replace (IntDef.Z.max (t + Z.log2 N + 1 + e - 53) (3 - 1024 - 53) - e)
      with (Z.neg p) by lia.
    cbn [shr shr_record_of_loc shr_m].
    destruct (Z.leb_spec e (1024 - 53)); [|lia].
    exists qp, t. replace (e + t - t) with e by lia. repeat split; [lia | lia | exact Hq].
Qed.

Lemma Pos_iter_xO (p m : positive) :
  Z.pos (Pos.iter xO m p) = Z.pos m * 2 ^ Z.pos p.
Proof.
  induction p as [|p IH] using Pos.peano_ind.
  - cbn. lia.
  - rewrite Pos.iter_succ, Pos2Z.inj_succ, Z.pow_succ_r by lia.
    rewrite Pos2Z.inj_xO, IH. lia.
Qed.

(** The Number of a non-zero integer below [2^53]: a mantissa of 53 bits
    that is the magnitude shifted left. *)
Lemma Z2F_canonical (d : Z) :
  d <> 0 -> Z.abs d < 2 ^ 53 ->
  exists mz u,
    Z2F d = S754_finite (d <? 0) mz (- u)
    /\ 0 <= u <= 52
    /\ Z.pos mz = Z.abs d * 2 ^ u
    /\ Z.pos (digits2_pos mz) = 53.
Proof.
  intros Hd Hb.
  assert (Hpos : forall (s : bool) (m : positive),
             Z.pos m < 2 ^ 53 ->
             exists mz u,
               binary_round prec emax s m 0 = S754_finite s mz (- u)
               /\ 0 <= u <= 52 /\ Z.pos mz = Z.pos m * 2 ^ u
               /\ Z.pos (digits2_pos mz) = 53).
  { intros s m Hm. pose proof (digits2_pos_safe m Hm) as Hdig.
    unfold binary_round, shl_align, fexp, emin, prec, emax.
    remember (Z.pos (digits2_pos m)) as dg eqn:Hdg.
    assert (Hdg0 : 0 < dg) by lia.
    replace (IntDef.Z.max (dg + 0 - 53) (3 - 1024 - 53)) with (dg - 53) by lia.
    destruct (dg - 53 - 0) as [|p|p] eqn:Hsh; try lia.
    - rewrite binary_round_aux_exact by lia.
      exists m, 0. repeat split; try lia.
    - assert (Hds : Z.pos (digits2_pos (Pos.iter xO m p)) = 53)
        by (rewrite digits2_pos_shift; lia).
      rewrite binary_round_aux_exact by lia.
      exists (Pos.iter xO m p), (Z.pos p).
      replace (- Z.pos p) with (dg - 53) by lia.
      repeat split; try lia. apply Pos_iter_xO. }
  unfold Z2F, binary_normalize.
  destruct d as [|m|m]; [congruence | |]; cbn [Z.ltb Z.compare Z.abs]; apply Hpos; exact Hb.
Qed.

(** Dividing two such Numbers whose magnitudes are in an integer ratio gives
    that ratio exactly. *)
Lemma js_div_exact (s1 s2 : bool) (m1 m2 : positive) (u1 u2 A B K : Z) :
  Z.pos (digits2_pos m1) = 53 -> Z.pos (digits2_pos m2) = 53 ->
  0 <= u1 <= 52 -> 0 <= u2 <= 52 ->
  Z.pos m1 = A * 2 ^ u1 -> Z.pos m2 = B * 2 ^ u2 ->
  A = K * B -> 0 < K < 2 ^ 53 -> 0 < B ->
  exists mz u,
    js_div (S754_finite s1 m1 (- u1)) (S754_finite s2 m2 (- u2))
    = S754_finite (xorb s1 s2) mz (- u)
    /\ 0 <= u <= 105 /\ Z.pos mz = K * 2 ^ u.
Proof.
  intros Hd1 Hd2 Hu1 Hu2 Hm1 Hm2 HA HK HB.
  unfold js_div, SFdiv, SFdiv_core_binary, Zdigits2. rewrite Hd1, Hd2.
  unfold fexp, emin, prec, emax.
  replace (Z.min (IntDef.Z.max (53 + - u1 - (53 + - u2) - 53) (3 - 1024 - 53))
                 (- u1 - - u2)) with (u2 - u1 - 53) by lia.
  replace (- u1 - - u2 - (u2 - u1 - 53)) with 53 by lia.
  assert (Hquot : Z.shiftl (Z.pos m1) 53 = (K * 2 ^ (u1 + 53 - u2)) * Z.pos m2).
  { rewrite Z.shiftl_mul_pow2, Hm1, Hm2, HA by lia.
    replace (u1 + 53 - u2) with (u1 + 53 + - u2) by lia.
    replace (K * B * 2 ^ u1 * 2 ^ 53) with (K * B * (2 ^ u1 * 2 ^ 53)) by ring.
    rewrite <- Z.pow_add_r by lia.
    replace (u1 + 53) with ((u1 + 53 + - u2) + u2) at 1 by lia.
    rewrite Z.pow_add_r by lia. ring. }
  assert (Hdiv : Z.div_eucl (Z.shiftl (Z.pos m1) 53) (Z.pos m2)
                 = (K * 2 ^ (u1 + 53 - u2), 0)).
  { rewrite Hquot.
    pose proof (Z.div_mul (K * 2 ^ (u1 + 53 - u2)) (Z.pos m2) ltac:(lia)) as Hq.
    pose proof (Z.mod_mul (K * 2 ^ (u1 + 53 - u2)) (Z.pos m2)) as Hr.
    unfold Z.div, Z.modulo in Hq, Hr.
    destruct (Z.div_eucl (K * 2 ^ (u1 + 53 - u2) * Z.pos m2) (Z.pos m2)) as [q r].
    cbn [fst snd] in Hq, Hr. rewrite Hq, Hr; [reflexivity | lia]. }
  cbv zeta. change (Z.shiftl (Z.pos m1) (Z.pos 53)) with (Z.shiftl (Z.pos m1) 53).
  rewrite Hdiv. cbv beta iota.
  replace (new_location (Z.pos m2) 0) with loc_Exact
    by (unfold new_location; destruct (Z.even (Z.pos m2)); reflexivity).
  destruct (binary_round_aux_value (xorb s1 s2) (K * 2 ^ (u1 + 53 - u2))
              (u2 - u1 - 53) K (u1 + 53 - u2) eq_refl ltac:(lia) HK ltac:(lia) ltac:(lia))
    as [mz [u [Hround [Hu Hmz]]]].
  exists mz, u. unfold prec, emax in Hround. rewrite Hround.
  split; [f_equal; lia|]. split; [lia | exact Hmz].
Qed.

(** Multiplying an integer-valued Number by one hundred is exact as long as
    the product stays below [2^53]. *)
Lemma js_mul_100_exact (s : bool) (m : positive) (u K : Z) :
  0 <= u <= 105 -> Z.pos m = K * 2 ^ u -> 0 < K -> 100 * K < 2 ^ 53 ->
  exists mz u',
    js_mul (S754_finite s m (- u)) (Z2F 100) = S754_finite s mz (- u')
    /\ 0 <= u' /\ Z.pos mz = (100 * K) * 2 ^ u'.
Proof.
  intros Hu Hm HK Hb.
  change (Z2F 100) with (S754_finite false 7036874417766400 (-46)).
  unfold js_mul, SFmul. rewrite Bool.xorb_false_r.
  destruct (binary_round_aux_value s (Z.pos (m * 7036874417766400)) (- u + -46)
              (100 * K) (u + 46)) as [mz [u' [Hround [Hu' Hmz]]]]; try lia.
  - rewrite Pos2Z.inj_mul, Hm.
    change (Z.pos 7036874417766400) with (100 * 2 ^ 46).
    rewrite Z.pow_add_r by lia. ring.
  - exists mz, u'. rewrite Hround.
    split; [f_equal; lia|]. split; [lia | exact Hmz].
Qed.

Lemma Math_round_integer (s : bool) (m : positive) (u N : Z) :
  0 <= u -> Z.pos m = N * 2 ^ u ->
  Math_round (S754_finite s m (- u)) = Finite (cond_Zopp s N).
Proof.
  intros Hu Hm. unfold Math_round.
  assert (HD : 0 < 2 ^ u) by (apply Z.pow_pos_nonneg; lia).
  assert (Hv : cond_Zopp s (Z.pos m) = cond_Zopp s N * 2 ^ u).
  { destruct s; cbn [cond_Zopp]; rewrite Hm; ring. }
  rewrite Hv.
  destruct (Z.leb_spec 0 (- u)) as [Hle | Hlt].
  - replace u with 0 by lia. cbn [Z.opp]. rewrite !Z.pow_0_r. f_equal. ring.
  - f_equal. rewrite Z.opp_involutive.
    replace (1 - - u) with (Z.succ u) by lia. rewrite Z.pow_succ_r by lia.
    replace (2 * (cond_Zopp s N * 2 ^ u) + 2 ^ u)
      with (cond_Zopp s N * (2 * 2 ^ u) + 2 ^ u) by ring.
    rewrite Z.div_add_l by lia. rewrite Z.div_small by lia. lia.
Qed.

(** When the delta is an integer multiple of the original size the
    percentage is one hundred times the factor, exactly. *)
Lemma percentage_of_multiple (k originalSize : Z) :
  originalSize <> 0 ->
  Z.abs originalSize < 2 ^ 53 ->
  Z.abs (k * originalSize) < 2 ^ 53 ->
  100 * Z.abs k < 2 ^ 53 ->
  percentage (k * originalSize) originalSize = Finite (100 * k).
Proof.
  intros Ho Hbo Hbd Hbk.
  destruct (Z.eq_dec k 0) as [-> | Hk].
  - cbn [Z.mul].
    destruct (Z2F_canonical _ Ho Hbo) as [m2 [u2 [Hy _]]].
    unfold percentage, rawPercentage. rewrite Hy. reflexivity.
  - assert (Hd : k * originalSize <> 0) by lia.
    destruct (Z2F_canonical _ Hd Hbd) as [m1 [u1 [Hx [Hu1 [Hm1 Hd1]]]]].
    destruct (Z2F_canonical _ Ho Hbo) as [m2 [u2 [Hy [Hu2 [Hm2 Hd2]]]]].
    unfold percentage, rawPercentage. rewrite Hx, Hy.
    destruct (js_div_exact (k * originalSize <? 0) (originalSize <? 0) m1 m2 u1 u2
                (Z.abs (k * originalSize)) (Z.abs originalSize) (Z.abs k)
                Hd1 Hd2 Hu1 Hu2 Hm1 Hm2)
      as [mq [uq [Hdiv [Huq Hmq]]]]; try lia.
    rewrite Hdiv.
    destruct (js_mul_100_exact (xorb (k * originalSize <? 0) (originalSize <? 0))
                mq uq (Z.abs k) Huq Hmq ltac:(lia) Hbk)
      as [mp [up [Hmul [Hup Hmp]]]].
    rewrite Hmul, (Math_round_integer _ mp up (100 * Z.abs k) Hup Hmp).
    f_equal.
    destruct (Z.ltb_spec (k * originalSize) 0), (Z.ltb_spec originalSize 0);
      cbn [xorb cond_Zopp]; nia.
Qed.

(** ** Integers in decimal digits *)

(** [String(n)] searches the shortest decimal that reads back as the same
    Number.  Below [2^52] no other integer it tries does, so the text is the
    decimal expansion of [n] itself. *)

Lemma string_of_uint_length (u : Decimal.uint) :
  String.length (NilEmpty.string_of_uint u) = Decimal.nb_digits u.
Proof.
  induction u; cbn [NilEmpty.string_of_uint String.length Decimal.nb_digits];
    congruence.
Qed.

Lemma of_uint_acc_lower (u : Decimal.uint) :
  forall acc : positive,
    Z.pos acc * 10 ^ Z.of_nat (Decimal.nb_digits u) <= Z.pos (Pos.of_uint_acc u acc).
Proof.
  induction u; intros acc; cbn [Pos.of_uint_acc Decimal.nb_digits];
    [rewrite Z.pow_0_r; lia | ..];
    rewrite Nat2Z.inj_succ, Z.pow_succ_r by lia;
    (eapply Z.le_trans; [|apply IHu]);
    match goal with
    | |- _ <= Z.pos ?p * ?t =>
        assert (0 < t) by (apply Z.pow_pos_nonneg; lia);
        assert (10 * Z.pos acc <= Z.pos p) by lia; nia
    end.
Qed.

Lemma to_uint_head (p : positive) :
  Pos.to_uint p <> Decimal.Nil /\ forall d, Pos.to_uint p <> Decimal.D0 d.
Proof.
  pose proof (DecimalPos.Unsigned.to_of (Pos.to_uint p)) as Hnorm.
  rewrite DecimalPos.Unsigned.of_to in Hnorm. cbn [N.to_uint] in Hnorm.
  assert (Hnz : Decimal.nzhead (Pos.to_uint p) <> Decimal.Nil).
  { intros Hnil. apply DecimalFacts.unorm_0 in Hnil. rewrite <- Hnorm in Hnil.
    pose proof (DecimalPos.Unsigned.of_to p) as Hof. rewrite Hnil in Hof. discriminate. }
  rewrite (DecimalFacts.unorm_nzhead _ Hnz) in Hnorm.
  split.
  - intros Hnil. rewrite Hnil in Hnz. apply Hnz. reflexivity.
  - intros d Hd. rewrite Hnorm in Hd. exact (DecimalFacts.nzhead_nonzero _ _ Hd).
Qed.

Lemma digits_length_lower (X : Z) :
  0 < X -> 10 ^ (Z.of_nat (String.length (digits X)) - 1) <= X.
Proof.
  intros HX. destruct X as [|p|p]; try lia.
  unfold digits. cbn [Z.to_N N.to_uint].
  destruct (to_uint_head p) as [Hnil Hd0].
  pose proof (DecimalPos.Unsigned.of_to p) as Hof.
  assert (Hlen : String.length (NilZero.string_of_uint (Pos.to_uint p))
                 = Decimal.nb_digits (Pos.to_uint p)).
  { unfold NilZero.string_of_uint.
    destruct (Pos.to_uint p); [congruence | apply string_of_uint_length ..]. }
  rewrite Hlen.
  destruct (Pos.to_uint p) as [|u|u|u|u|u|u|u|u|u|u];
    [congruence | exfalso; exact (Hd0 u eq_refl) | ..];
    cbn [Pos.of_uint Decimal.nb_digits] in *;
    injection Hof as Hof; rewrite <- Hof;
    rewrite Nat2Z.inj_succ;
    replace (Z.succ (Z.of_nat (Decimal.nb_digits u)) - 1)
      with (Z.of_nat (Decimal.nb_digits u)) by lia;
    match goal with
    | |- _ <= Z.pos (Pos.of_uint_acc u ?k) =>
        pose proof (of_uint_acc_lower u k) as Hacc;
        assert (0 < 10 ^ Z.of_nat (Decimal.nb_digits u))
          by (apply Z.pow_pos_nonneg; lia);
        nia
    end.
Qed.

Lemma SFeqb_finite (s1 s2 : bool) (m1 m2 : positive) (e1 e2 : Z) :
  SFeqb (S754_finite s1 m1 e1) (S754_finite s2 m2 e2) = true ->
  s1 = s2 /\ m1 = m2 /\ e1 = e2.
Proof.
  unfold SFeqb, SFcompare.
  destruct s1, s2; try discriminate;
    destruct (Z.compare_spec e1 e2) as [He | He | He]; try discriminate;
    fold (Pos.compare m1 m2);
    destruct (Pos.compare_spec m1 m2) as [Hm | Hm | Hm]; try discriminate;
    intros _; auto.
Qed.

Lemma SFeqb_refl_finite (s : bool) (m : positive) (e : Z) :
  SFeqb (S754_finite s m e) (S754_finite s m e) = true.
Proof.
  unfold SFeqb, SFcompare. rewrite Z.compare_refl.
  fold (Pos.compare m m). rewrite Pos.compare_refl. destruct s; reflexivity.
Qed.

Lemma Z2F_same_safe (a b : Z) :
  0 < a < 2 ^ 53 -> 0 < b < 2 ^ 53 ->
  SFeqb (Z2F a) (Z2F b) = true -> a = b.
Proof.
  intros Ha Hb.
  destruct (Z2F_canonical a) as [ma [ua [Hfa [Hua [Hma _]]]]]; try lia.
  destruct (Z2F_canonical b) as [mb [ub [Hfb [Hub [Hmb _]]]]]; try lia.
  rewrite Hfa, Hfb. intros Heq.
  apply SFeqb_finite in Heq. destruct Heq as [_ [Hm He]].
  assert (ua = ub) by lia. subst ub.
  assert (Hpow : 0 < 2 ^ ua) by (apply Z.pow_pos_nonneg; lia).
  rewrite Hm in Hma. rewrite Hma in Hmb. nia.
Qed.

Lemma Z2F_same_refl (a : Z) :
  0 < a < 2 ^ 53 -> SFeqb (Z2F a) (Z2F a) = true.
Proof.
  intros Ha.
  destruct (Z2F_canonical a) as [ma [ua [Hfa _]]]; try lia.
  rewrite Hfa. apply SFeqb_refl_finite.
Qed.

Lemma shortest_safe (fuel : nat) :
  forall X P, 0 < X -> 0 <= P -> X + P < 2 ^ 53 -> shortest fuel X P = X.
Proof.
  induction fuel as [|fuel IH]; intros X P HX HP Hb; cbn [shortest]; [reflexivity|].
  assert (Hhi : SFeqb (Z2F (X / P * P + P)) (Z2F X) = false).
  { destruct (Z.eq_dec P 0) as [-> | HP0].
    - rewrite Z.mul_0_r. cbn [Z.add].
      destruct (Z2F_canonical X) as [mx [ux [Hfx _]]]; try lia.
      rewrite Hfx. change (Z2F 0) with (S754_zero false).
      destruct (X <? 0); reflexivity.
    - pose proof (Z.mod_pos_bound X P ltac:(lia)) as Hmod.
      pose proof (Z.div_mod X P HP0) as Hdiv.
      destruct (SFeqb (Z2F (X / P * P + P)) (Z2F X)) eqn:Hsame; [|reflexivity].
      apply Z2F_same_safe in Hsame; lia. }
  rewrite Hhi, Bool.andb_false_r.
  destruct ((0 <? X / P * P) && SFeqb (Z2F (X / P * P)) (Z2F X)) eqn:Hlo.
  - apply andb_prop in Hlo. destruct Hlo as [Hpos Hsame].
    apply Z.ltb_lt in Hpos.
    destruct (Z.eq_dec P 0) as [-> | HP0]; [lia|].
    pose proof (Z.mod_pos_bound X P ltac:(lia)) as Hmod.
    pose proof (Z.div_mod X P HP0) as Hdiv.
    apply Z2F_same_safe in Hsame; lia.
  - apply IH; try lia.
    + apply Z.div_pos; lia.
    + assert (P / 10 <= P) by (apply Z.div_le_upper_bound; lia). lia.
Qed.

Lemma Number_toString_safe (n : Z) :
  n <> 0 -> Z.abs n < 2 ^ 52 ->
  Number_toString (Finite n) = (if n <? 0 then "-" else "") ++ digits (Z.abs n).
Proof.
  intros Hn Hb.
  assert (HX : 0 < Z.abs n) by lia.
  pose proof (digits_length_lower (Z.abs n) HX) as Hlow.
  set (len := String.length (digits (Z.abs n))) in *.
  assert (Hlen : (len <= 21)%nat).
  { destruct (Nat.le_gt_cases len 21) as [Hle | Hgt]; [exact Hle | exfalso].
    assert (10 ^ 21 <= 10 ^ (Z.of_nat len - 1)) by (apply Z.pow_le_mono_r; lia).
    assert (2 ^ 52 < 10 ^ 21) by reflexivity. lia. }
  assert (Hs : shortest len (Z.abs n) (10 ^ (Z.of_nat len - 1)) = Z.abs n).
  { assert (0 <= 10 ^ (Z.of_nat len - 1)) by (apply Z.pow_nonneg; lia).
    assert (2 ^ 53 = 2 * 2 ^ 52) by reflexivity.
    apply shortest_safe; lia. }
  unfold Number_toString.
  destruct n as [|p|p]; [congruence | |];
    cbv zeta; fold len; rewrite Hs; fold len;
    apply Nat.leb_le in Hlen; rewrite Hlen; reflexivity.
Qed.

(** ** The delta classifier on values *)

Lemma percentage_case `{Formatter} (delta originalSize : Z) :
  delta <> 0 -> originalSize <> 0 -> originalSize <> - delta ->
  getDeltaText delta originalSize
  = ((if 0 <? delta then "+" else "") ++ prettyBytes delta)
      ++ " (" ++ (if gtZ (percentage delta originalSize) 0 then "+" else "")
      ++ Number_toString (percentage delta originalSize) ++ "%)".
Proof.
  intros Hd Ho Hr. unfold getDeltaText.
  destruct (Z.eqb_spec (Z.abs delta) 0); [lia|].
  destruct (Z.eqb_spec originalSize 0); [lia|].
  destruct (Z.eqb_spec originalSize (- delta)); [lia|].
  reflexivity.
Qed.

(** C5: [getDeltaText] starts with the formatted delta, prefixed by a plus
    sign when the delta is positive, and then checks in this order: a zero
    delta gets no suffix; else a zero original size gets [ (new file)]; else
    an original size equal to the negated delta gets [ (removed)]; else the
    percentage follows in parentheses, in decimal digits, with a plus sign
    when it is positive (and as [Infinity] or [NaN] when it is not
    finite).  That percentage is the delta relative to the
    original size: it is [Math.round] of the binary64 value of
    [(delta / originalSize) * 100], it is exactly one hundred times the
    factor when the delta is a multiple of the original size, and on the
    sample inputs below it is 10, -12, 13, 0, 33, 5000 and -75. *)
Theorem getDeltaText_cases `{Formatter} (delta originalSize : Z) :
  let lead := (if 0 <? delta then "+" else "") ++ prettyBytes delta in
  (0 < delta -> lead = "+" ++ prettyBytes delta)
  /\ (delta <= 0 -> lead = prettyBytes delta)
  /\ (delta = 0 -> getDeltaText delta originalSize = prettyBytes 0)
  /\ (delta <> 0 -> originalSize = 0 ->
      getDeltaText delta originalSize = lead ++ " (new file)")
  /\ (delta <> 0 -> originalSize <> 0 -> originalSize = - delta ->
      getDeltaText delta originalSize = lead ++ " (removed)")
  /\ (delta <> 0 -> originalSize <> 0 -> originalSize <> - delta ->
      forall q n,
        F2Q (rawPercentage delta originalSize) = Some q ->
        rounds_half_up q n ->
        getDeltaText delta originalSize
        = lead ++ " (" ++ (if 0 <? n then "+" else "")
               ++ Number_toString (Finite n) ++ "%)")
  /\ (delta <> 0 -> originalSize <> 0 -> originalSize <> - delta ->
      forall q n,
        F2Q (rawPercentage delta originalSize) = Some q ->
        rounds_half_up q n -> Z.abs n < 2 ^ 52 ->
        getDeltaText delta originalSize
        = lead ++ " (" ++ (if 0 <? n then "+" else if n <? 0 then "-" else "")
               ++ digits (Z.abs n) ++ "%)")
  /\ (delta <> 0 -> originalSize <> 0 -> originalSize <> - delta ->
      (percentage delta originalSize = Infinite false ->
       getDeltaText delta originalSize = lead ++ " (+Infinity%)")
      /\ (percentage delta originalSize = Infinite true ->
          getDeltaText delta originalSize = lead ++ " (-Infinity%)")
      /\ (percentage delta originalSize = NotANumber ->
          getDeltaText delta originalSize = lead ++ " (NaN%)"))
  /\ (forall k,
         k <> 0 -> k <> -1 -> originalSize <> 0 ->
         Z.abs originalSize < 2 ^ 53 -> Z.abs (k * originalSize) < 2 ^ 53 ->
         100 * Z.abs k < 2 ^ 53 ->
         getDeltaText (k * originalSize) originalSize
         = ((if 0 <? k * originalSize then "+" else "")
              ++ prettyBytes (k * originalSize))
             ++ " (" ++ (if 0 <? k then "+" else "")
             ++ Number_toString (Finite (100 * k)) ++ "%)")
  /\ getDeltaText 100 1000 = ("+" ++ prettyBytes 100) ++ " (+10%)"
  /\ getDeltaText (-1) 8 = prettyBytes (-1) ++ " (-12%)"
  /\ getDeltaText 1 8 = ("+" ++ prettyBytes 1) ++ " (+13%)"
  /\ getDeltaText (-1) 1000 = prettyBytes (-1) ++ " (0%)"
  /\ getDeltaText 1 3 = ("+" ++ prettyBytes 1) ++ " (+33%)"
  /\ getDeltaText 5000 100 = ("+" ++ prettyBytes 5000) ++ " (+5000%)"
  /\ getDeltaText (-30) 40 = prettyBytes (-30) ++ " (-75%)".
Proof.
  cbv zeta.
  repeat apply conj; try reflexivity.
  - intros Hd. apply Z.ltb_lt in Hd. rewrite Hd. reflexivity.
  - intros Hd. apply Z.ltb_ge in Hd. rewrite Hd. reflexivity.
  - intros ->. reflexivity.
  - intros Hd ->. unfold getDeltaText.
    destruct (Z.eqb_spec (Z.abs delta) 0); [lia|]. reflexivity.
  - intros Hd Ho ->. unfold getDeltaText.
    destruct (Z.eqb_spec (Z.abs delta) 0); [lia|].
    destruct (Z.eqb_spec (- delta) 0); [lia|].
    rewrite Z.eqb_refl. reflexivity.
  - intros Hd Ho Hr q n Hq Hn.
    rewrite (percentage_case _ _ Hd Ho Hr).
    destruct (Math_round_half_up _ _ Hq) as [n0 [Hn0 Hr0]].
    rewrite (rounds_half_up_unique _ _ _ Hn Hr0).
    unfold percentage. rewrite Hn0. reflexivity.
  - intros Hd Ho Hr q n Hq Hn Hb.
    rewrite (percentage_case _ _ Hd Ho Hr).
    destruct (Math_round_half_up _ _ Hq) as [n0 [Hn0 Hr0]].
    rewrite (rounds_half_up_unique _ _ _ Hn Hr0) in *.
    unfold percentage. rewrite Hn0. cbn [gtZ].
    destruct (Z.eq_dec n0 0) as [-> | Hnz]; [reflexivity|].
    rewrite (Number_toString_safe n0 Hnz Hb).
    destruct (Z.ltb_spec 0 n0), (Z.ltb_spec n0 0); try lia; reflexivity.
  - intros Hd Ho Hr. rewrite (percentage_case _ _ Hd Ho Hr).
    repeat apply conj; intros ->; reflexivity.
  - intros k Hk Hk1 Ho Hbo Hbd Hbk.
    rewrite percentage_case by nia.
    rewrite (percentage_of_multiple k originalSize Ho Hbo Hbd Hbk).
    cbn [gtZ].
    destruct (Z.ltb_spec 0 (100 * k)), (Z.ltb_spec 0 k); try lia; reflexivity.
Qed.

(** C6: [iconForDifference] returns the new-file icon exactly when the
    original size is zero; otherwise the percentage [p] selects the icon:
    [p >= 50] critical growth, [p >= 20] warning, [p >= 10] caution,
    [p >= 5] notice, [p <= -50] trophy, [p <= -20] celebration, [p <= -10]
    applause, [p <= -5] check, and nothing in between; an infinite
    percentage counts as beyond every threshold on its side and NaN selects
    nothing.  A percentage of 50 is critical growth, 49 warning growth, -50
    trophy, -49 celebration.  The percentage is the delta relative to the
    original size: [Math.round] of the binary64 value of
    [(delta / originalSize) * 100], exactly one hundred times the factor
    when the delta is a multiple of the original size, and as listed on the
    sample inputs below. *)
Theorem iconForDifference_thresholds (delta originalSize : Z) :
  let icon := iconForDifference delta originalSize in
  (originalSize = 0 <-> icon = icon_new)
  /\ (forall p, originalSize <> 0 -> percentage delta originalSize = Finite p ->
      (50 <= p -> icon = icon_critical_growth)
      /\ (20 <= p < 50 -> icon = icon_warning_growth)
      /\ (10 <= p < 20 -> icon = icon_caution_growth)
      /\ (5 <= p < 10 -> icon = icon_notice_growth)
      /\ (p <= -50 -> icon = icon_trophy_shrink)
      /\ (-50 < p <= -20 -> icon = icon_celebration_shrink)
      /\ (-20 < p <= -10 -> icon = icon_applause_shrink)
      /\ (-10 < p <= -5 -> icon = icon_check_shrink)
      /\ (-5 < p < 5 -> icon = ""))
  /\ (originalSize <> 0 ->
      (percentage delta originalSize = Infinite false -> icon = icon_critical_growth)
      /\ (percentage delta originalSize = Infinite true -> icon = icon_trophy_shrink)
      /\ (percentage delta originalSize = NotANumber -> icon = ""))
  /\ (forall q n,
         F2Q (rawPercentage delta originalSize) = Some q ->
         rounds_half_up q n -> percentage delta originalSize = Finite n)
  /\ (forall k,
         originalSize <> 0 ->
         Z.abs originalSize < 2 ^ 53 -> Z.abs (k * originalSize) < 2 ^ 53 ->
         100 * Z.abs k < 2 ^ 53 ->
         percentage (k * originalSize) originalSize = Finite (100 * k)
         /\ (1 <= k -> iconForDifference (k * originalSize) originalSize
                       = icon_critical_growth)
         /\ (k = 0 -> iconForDifference (k * originalSize) originalSize = "")
         /\ (k <= -1 -> iconForDifference (k * originalSize) originalSize
                        = icon_trophy_shrink))
  /\ (percentage 50 100 = Finite 50
      /\ iconForDifference 50 100 = icon_critical_growth)
  /\ (percentage 49 100 = Finite 49
      /\ iconForDifference 49 100 = icon_warning_growth)
  /\ (percentage (-50) 100 = Finite (-50)
      /\ iconForDifference (-50) 100 = icon_trophy_shrink)
  /\ (percentage (-49) 100 = Finite (-49)
      /\ iconForDifference (-49) 100 = icon_celebration_shrink)
  /\ (percentage 10 1000 = Finite 1 /\ iconForDifference 10 1000 = "")
  /\ (percentage 50 1000 = Finite 5
      /\ iconForDifference 50 1000 = icon_notice_growth)
  /\ (percentage 3 20 = Finite 15
      /\ iconForDifference 3 20 = icon_caution_growth)
  /\ (percentage 600 3000 = Finite 20
      /\ iconForDifference 600 3000 = icon_warning_growth)
  /\ (percentage 495 1000 = Finite 50
      /\ iconForDifference 495 1000 = icon_critical_growth)
  /\ (percentage 1 8 = Finite 13
      /\ iconForDifference 1 8 = icon_caution_growth)
  /\ (percentage (-7) 140 = Finite (-5)
      /\ iconForDifference (-7) 140 = icon_check_shrink)
  /\ (percentage (-1) 8 = Finite (-12)
      /\ iconForDifference (-1) 8 = icon_applause_shrink)
  /\ (percentage (-495) 1000 = Finite (-49)
      /\ iconForDifference (-495) 1000 = icon_celebration_shrink)
  /\ (percentage (-2048) 4096 = Finite (-50)
      /\ iconForDifference (-2048) 4096 = icon_trophy_shrink)
  /\ (percentage (-4) 100 = Finite (-4) /\ iconForDifference (-4) 100 = "").
Proof.
  cbv zeta.
  split; [| split; [| split; [| split; [| split; [| repeat split; reflexivity]]]]].
  - unfold iconForDifference. split.
    + intros ->. reflexivity.
    + destruct (Z.eqb_spec originalSize 0) as [|Hne]; [trivial|].
      icon_branches; discriminate.
  - intros p Hne Hp. unfold iconForDifference.
    destruct (Z.eqb_spec originalSize 0) as [|_]; [contradiction|].
    rewrite Hp. cbn [geZ leZ].
    repeat apply conj; intros Hr;
      repeat match goal with
             | |- context [?a <=? ?b] =>
                 destruct (Z.leb_spec a b); try lia
             end; reflexivity.
  - intros Hne. unfold iconForDifference.
    destruct (Z.eqb_spec originalSize 0) as [|_]; [contradiction|].
    repeat apply conj; intros ->; reflexivity.
  - intros q n Hq Hn.
    destruct (Math_round_half_up _ _ Hq) as [n0 [Hn0 Hr0]].
    rewrite (rounds_half_up_unique _ _ _ Hn Hr0). exact Hn0.
  - intros k Ho Hbo Hbd Hbk.
    pose proof (percentage_of_multiple k originalSize Ho Hbo Hbd Hbk) as Hp.
    split; [exact Hp|].
    unfold iconForDifference.
    destruct (Z.eqb_spec originalSize 0) as [|_]; [contradiction|].
    rewrite Hp. cbn [geZ leZ].
    repeat apply conj; intros Hk;
      repeat match goal with
             | |- context [?a <=? ?b] =>
                 destruct (Z.leb_spec a b); try lia
             end; reflexivity.
Qed.

(** ** When the table renderer returns *)





(** ** The whole [compare] command *)

Lemma compareCommand_plain `{Formatter} `{JsonParser} `{Differ}
      (fuel : nat) (origSizes : Snapshot) (fetched : Fetched) (threshold : Z)
      (curStats : result Stats.t) :
  compareCommand fuel origSizes fetched threshold false curStats
  = match compare fuel origSizes fetched threshold with
    | Some run => Ended run
    | None => StillLooping
    end.
Proof.
  unfold compareCommand, compare.
  destruct (getGistContents fetched) as [logged prev].
  destruct (getProp prev "bundle") as [bundle | error]; [|reflexivity].
  destruct (diffTable fuel _ _); reflexivity.
Qed.

(** Without a baseline the whole command fails as its first part does,
    with or without the statistics. *)
Lemma compareCommand_fails_on_failed_fetch `{Formatter} `{JsonParser} `{Differ}
      (fuel : nat) (origSizes : Snapshot) (fetched : Fetched) (threshold : Z)
      (devStats : bool) (curStats : result Stats.t) (error : exn) :
  readGist fetched = Throw error ->
  compareCommand fuel origSizes fetched threshold devStats curStats
  = Ended {| console := [ConsoleError "getGistContents error" error];
             outcome :=
               Throw (TypeError
                        "Cannot read properties of undefined (reading 'bundle')") |}.
Proof.
  intros Hfail. unfold compareCommand, getGistContents. rewrite Hfail. reflexivity.
Qed.

(** The statistics [update] stores are the ones [compare] reads back. *)
Lemma integerOf_Z2F (z : Z) : Z.abs z < 2 ^ 53 -> integerOf (Z2F z) = Some z.
Proof.
  intros Hb. destruct (Z.eq_dec z 0) as [-> | Hz]; [reflexivity|].
  destruct (Z2F_canonical z Hz Hb) as [mz [u [Hf [Hu [Hm _]]]]].
  rewrite Hf. cbn [integerOf].
  assert (Hpow : 0 < 2 ^ u) by (apply Z.pow_pos_nonneg; lia).
  assert (Hsign : cond_Zopp (z <? 0) (Z.abs z) = z)
    by (destruct (Z.ltb_spec z 0); cbn [cond_Zopp]; lia).
  destruct (Z.leb_spec 0 (- u)) as [Hle | Hlt].
  - replace u with 0 in * by lia. cbn [Z.opp]. rewrite Z.pow_0_r in *.
    rewrite Hm. f_equal. rewrite !Z.mul_1_r. exact Hsign.
  - rewrite Z.opp_involutive, Hm, Z.mod_mul, Z.eqb_refl by lia.
    rewrite Z.div_mul by lia. f_equal. exact Hsign.
Qed.

Lemma storedStats_of_update (sizes : Snapshot) (stats : Stats.t) :
  Z.abs (Stats.size stats) < 2 ^ 53 -> Z.abs (Stats.count stats) < 2 ^ 53 ->
  storedStats (gistFileOf sizes (Some stats)) = StatsStored stats
  /\ storedStats (gistFileOf sizes None) = StatsMissing.
Proof.
  intros Hs Hc. split; [|reflexivity].
  unfold storedStats, gistFileOf, statsJson.
  cbn [lookup String.eqb Ascii.eqb Bool.eqb].
  cbn.
  rewrite (integerOf_Z2F _ Hs), (integerOf_Z2F _ Hc).
  destruct stats; reflexivity.
Qed.

(** X17: for a differ that yields integer sizes and deltas, as [Differ]
    has it: whenever the request and the decoding of the stored document go
    through, the command prints the report first and logs no error.
    Without [devStats] it then ends normally, the report being all it
    wrote.  With [devStats] it ends with the error of [getDevStats()] when
    that rejects, right after the report; and when [getDevStats()] resolves
    and the stored statistics are missing or hold an integer size and
    count, it prints the text of [devStatsDiff] second and ends normally. *)
Theorem compare_prints_report `{Formatter} `{JsonParser} `{Differ}
        (fuel : nat) (origSizes : Snapshot) (fetched : Fetched) (threshold : Z)
        (stored : Json) :
  readGist fetched = Ok stored ->
  exists report,
    (forall curStats,
        compareCommand (3 + fuel) origSizes fetched threshold false curStats
        = Ended {| console := [ConsoleLog report]; outcome := Ok tt |})
    /\ (forall error,
           compareCommand (3 + fuel) origSizes fetched threshold true (Throw error)
           = Ended {| console := [ConsoleLog report]; outcome := Throw error |})
    /\ (forall stats,
           storedStats stored = StatsMissing ->
           compareCommand (3 + fuel) origSizes fetched threshold true (Ok stats)
           = Ended {| console := [ConsoleLog report;
                                  ConsoleLog (devStatsDiff stats None)];
                      outcome := Ok tt |})
    /\ (forall stats before,
           storedStats stored = StatsStored before ->
           compareCommand (3 + fuel) origSizes fetched threshold true (Ok stats)
           = Ended {| console := [ConsoleLog report;
                                  ConsoleLog (devStatsDiff stats (Some before))];
                      outcome := Ok tt |}).
Proof.
  intros Hread.
  assert (Hshape : exists baseline,
             getProp (Some stored) "bundle" = Ok (Some baseline)
             /\ baseline <> JNull).
  { unfold readGist in Hread.
    destruct fetched as [reason | ok statusText json]; [discriminate|].
    destruct ok; [|discriminate]. cbn [negb] in Hread.
    destruct json as [files | error]; [|discriminate]. cbn [bind] in Hread.
    destruct (match lookup GIST_FILE_NAME files with
              | Some file => JSON_parse (content file)
              | None => Ok (JObject [])
              end) as [jsonFile | error] eqn:Hparse; [|discriminate].
    cbn [bind] in Hread.
    destruct (Json_eq_null jsonFile) as [-> | Hnull]; [discriminate|].
    destruct (readGist_of_document jsonFile Hnull) as [stored' [Hs [Hb Hn]]].
    rewrite Hs in Hread. injection Hread as <-. eauto. }
  destruct Hshape as [baseline [Hb Hn]].
  destruct (diffTable_returns fuel (getDiff baseline (cleanSizes origSizes))
              (compareOptions threshold)) as [report Hreport].
  unfold compareOptions in Hreport.
  assert (Hbase : orEmptyObject (Some baseline) = baseline)
    by (destruct baseline; [congruence | reflexivity ..]).
  exists report.
  repeat apply conj; intros; unfold compareCommand, getGistContents;
    rewrite Hread, Hb, Hbase, Hreport; cbn [app];
    try match goal with Hs : storedStats stored = _ |- _ => rewrite Hs end;
    reflexivity.
Qed.

Lemma compare_prints_report_witness :
  let before := {| Stats.size := 2048; Stats.count := 3 |} in
  let doc := gistFileOf [("/app.js", 100)] (Some before) in
  let fetched := Response true "OK" (Ok [(GIST_FILE_NAME, {| content := "stored" |})]) in
  exists report,
    (forall curStats,
        @compareCommand plainBytes (parserOf "stored" doc) noDiff 3
          [("/build/output/app.js", 120)] fetched 10 false curStats
        = Ended {| console := [ConsoleLog report]; outcome := Ok tt |})
    /\ (forall error,
           @compareCommand plainBytes (parserOf "stored" doc) noDiff 3
             [("/build/output/app.js", 120)] fetched 10 true (Throw error)
           = Ended {| console := [ConsoleLog report]; outcome := Throw error |})
    /\ (forall stats,
           @compareCommand plainBytes (parserOf "stored" doc) noDiff 3
             [("/build/output/app.js", 120)] fetched 10 true (Ok stats)
           = Ended {| console := [ConsoleLog report;
                                  ConsoleLog (@devStatsDiff plainBytes stats
                                                (Some before))];
                      outcome := Ok tt |}).
Proof.
  intros before doc fetched.
  destruct (@compare_prints_report plainBytes (parserOf "stored" doc) noDiff 0
              [("/build/output/app.js", 120)] fetched 10 doc eq_refl)
    as [report [Hplain [Hrejected [_ Hstored]]]].
  exists report. split; [exact Hplain|]. split; [exact Hrejected|].
  intros stats. apply (Hstored stats before). reflexivity.
Defined.
